(** * The upload / conversion / gallery lifecycle of [src/App.tsx]

    A shallow embedding of the state glue of the [App] component:
    the twelve [useState] cells become one record, every event handler
    becomes a function that threads that record together with the trace
    of the effects it performs (HTTP requests, the confirmation prompt,
    console logging), and the values the render function derives
    ([getProxyUrl], [displayModelUrl]) become pure functions.

    Strings are Rocq [string]s read as UTF-8 byte sequences; the TypeScript
    [number]s the code handles (model identifiers, JSON numbers) are the
    integer-valued ones, modelled as [Z]. *)

From Stdlib Require Import String Ascii List ZArith Bool Lia.
From Stdlib Require Import DecimalString.
Import ListNotations.
Open Scope string_scope.
Set Warnings "-register-all".

(** ** Strings as the JavaScript runtime sees them *)

Module Js.

(** [!!s] for a string: only the empty string is falsy. *)
Definition truthy_string (s : string) : bool :=
  match s with
  | EmptyString => false
  | String _ _ => true
  end.

(** [s.startsWith(p)]. *)
Definition startsWith (s p : string) : bool := String.prefix p s.

(** Template-literal rendering of an integer-valued number: its decimal
    digits, which is what the runtime prints for every safe integer (one
    of magnitude below 2^53, as an identifier is). *)
Definition string_of_Z (n : Z) : string :=
  NilZero.string_of_int (Z.to_int n).

Definition string_of_nat (n : nat) : string :=
  NilZero.string_of_uint (Nat.to_uint n).

(** The characters [encodeURIComponent] leaves alone:
    [A-Z a-z 0-9 - _ . ! ~ * ' ( )]. *)
Definition uri_unreserved (c : ascii) : bool :=
  let n := nat_of_ascii c in
  (((65 <=? n) && (n <=? 90))
   || ((97 <=? n) && (n <=? 122))
   || ((48 <=? n) && (n <=? 57))
   || (n =? 45) || (n =? 95) || (n =? 46) || (n =? 33)
   || (n =? 126) || (n =? 42) || (n =? 39) || (n =? 40) || (n =? 41))%nat.

Definition hex_digit (n : nat) : ascii :=
  if (n <? 10)%nat then ascii_of_nat (48 + n) else ascii_of_nat (55 + n).

(** [%XX] for one byte. *)
Definition percent_encode (c : ascii) : string :=
  let n := nat_of_ascii c in
  String "%" (String (hex_digit (n / 16)) (String (hex_digit (n mod 16)) EmptyString)).

(** [encodeURIComponent(s)] on the UTF-8 bytes of [s]. *)
Fixpoint encodeURIComponent (s : string) : string :=
  match s with
  | EmptyString => EmptyString
  | String c rest =>
      if uri_unreserved c
      then String c (encodeURIComponent rest)
      else percent_encode c ++ encodeURIComponent rest
  end.

(** What may occur in the output of [encodeURIComponent]. *)
Definition uri_safe (c : ascii) : bool :=
  uri_unreserved c || (nat_of_ascii c =? 37)%nat.

Fixpoint all_chars (p : ascii -> bool) (s : string) : bool :=
  match s with
  | EmptyString => true
  | String c rest => p c && all_chars p rest
  end.

End Js.

(** ** Asset addresses *)

Section AssetAddress.

(** [const API_BASE = import.meta.env.VITE_API_URL || ''] *)
Variable API_BASE : string.

(** The proxy form an address is rewritten to. *)
Definition proxy_form (url : string) : string :=
  API_BASE ++ "/api/proxy-glb?url=" ++ Js.encodeURIComponent url.

(** [getProxyUrl]: [null] is [None]. *)
Definition getProxyUrl (url : string) : option string :=
  if negb (Js.truthy_string url) then None
  else Some (if Js.startsWith url "http" then proxy_form url else url).

End AssetAddress.

(** ** Values received from the backing service

    [response.json()] yields a value of type [any]; the code reads
    properties of it ([detail], [models]) and stores it in typed state
    cells.  [JsValue] is such a value: what [JSON.parse] can produce, plus
    [undefined] for the result of reading an absent property. *)

Inductive JsValue : Type :=
| JsUndefined
| JsNull
| JsBool (b : bool)
| JsNumber (n : Z)
| JsString (s : string)
| JsArray (items : list JsValue)
| JsObject (fields : list (string * JsValue)).

(** What a [throw] or a rejected promise carries: an [Error] instance (with
    its [name] and [message]) or any other value. *)
Inductive JsThrown : Type :=
| JsError (name message : string)
| JsNonError (v : JsValue).

(** The settlement of an awaited promise. *)
Inductive Outcome (A : Type) : Type :=
| Resolved (a : A)
| Rejected (e : JsThrown).
Arguments Resolved {A} a.
Arguments Rejected {A} e.

Module JsVal.

(** [Boolean(v)], the test behind [v || w] and [v ? a : b]. *)
Definition truthy (v : JsValue) : bool :=
  match v with
  | JsUndefined | JsNull => false
  | JsBool b => b
  | JsNumber n => negb (n =? 0)%Z
  | JsString s => Js.truthy_string s
  | JsArray _ | JsObject _ => true
  end.

(** [v || w]. *)
Definition or (v w : JsValue) : JsValue := if truthy v then v else w.

(** The value of property [k] among the properties of an object, each
    listed once; [undefined] when there is none. *)
Fixpoint lookup (k : string) (fields : list (string * JsValue)) : JsValue :=
  match fields with
  | [] => JsUndefined
  | (k', v) :: rest => if String.eqb k k' then v else lookup k rest
  end.

(** The message of the [TypeError] raised when a property of [null] or
    [undefined] is read (the text is the engine's; nothing depends on it). *)
Definition cannot_read (v : JsValue) (k : string) : JsThrown :=
  JsError "TypeError"
    ("Cannot read properties of "
     ++ match v with JsNull => "null" | _ => "undefined" end
     ++ " (reading '" ++ k ++ "')").

(** [v.k] for the property names the code reads, none of which is a
    built-in member of strings, numbers, booleans or arrays. *)
Definition get (v : JsValue) (k : string) : Outcome JsValue :=
  match v with
  | JsUndefined | JsNull => Rejected (cannot_read v k)
  | JsObject fields => Resolved (lookup k fields)
  | _ => Resolved JsUndefined
  end.

(** Whether an object has a property of its own named [k]. *)
Definition has_own (k : string) (fields : list (string * JsValue)) : bool :=
  existsb (fun kv => String.eqb k (fst kv)) fields.

(** The [TypeError] raised when an object has no primitive value (the
    text is the engine's; nothing depends on it). *)
Definition cannot_convert : JsThrown :=
  JsError "TypeError" "Cannot convert object to primitive value".

(** [String(v)], as applied by [new Error(v)] to its argument.  A plain
    object prints through [Object.prototype.toString] unless it has a
    [toString] member of its own, which a value received as JSON cannot
    call: then the conversion throws.  An array joins the strings of its
    elements, [null] counting as empty. *)
Fixpoint toString (v : JsValue) : Outcome string :=
  match v with
  | JsUndefined => Resolved "undefined"
  | JsNull => Resolved "null"
  | JsBool true => Resolved "true"
  | JsBool false => Resolved "false"
  | JsNumber n => Resolved (Js.string_of_Z n)
  | JsString s => Resolved s
  | JsArray items =>
      let fix join (l : list JsValue) : Outcome (list string) :=
        match l with
        | [] => Resolved []
        | x :: rest =>
            match match x with
                  | JsUndefined | JsNull => Resolved ""
                  | _ => toString x
                  end with
            | Rejected e => Rejected e
            | Resolved sx =>
                match join rest with
                | Rejected e => Rejected e
                | Resolved srest => Resolved (sx :: srest)
                end
            end
        end in
      match join items with
      | Rejected e => Rejected e
      | Resolved parts => Resolved (String.concat "," parts)
      end
  | JsObject fields =>
      if has_own "toString" fields then Rejected cannot_convert
      else Resolved "[object Object]"
  end.

(** [new Error(v)]: the error, unless converting [v] to its message
    throws. *)
Definition new_Error (v : JsValue) : Outcome JsThrown :=
  match v with
  | JsUndefined => Resolved (JsError "Error" "")
  | _ =>
      match toString v with
      | Resolved message => Resolved (JsError "Error" message)
      | Rejected e => Rejected e
      end
  end.

End JsVal.

(** ** Data model (the interfaces of [App.tsx]) *)

(** A browser [File]: its name and its bytes.  The code only passes files
    around. *)
Record File : Type := { file_name : string; file_bytes : string }.

Module ViewType.
(** ['front' | 'back' | 'left' | 'right'] *)
Inductive t : Type := front | back | left | right.

(** The string a viewpoint is: the key of its slot and of its form field. *)
Definition key (v : t) : string :=
  match v with
  | front => "front"
  | back => "back"
  | left => "left"
  | right => "right"
  end.
End ViewType.

Module ViewImages.
Record t : Type :=
  { front : option File; back : option File;
    left : option File; right : option File }.

(** [{ front: null, back: null, left: null, right: null }] *)
Definition empty : t :=
  {| front := None; back := None; left := None; right := None |}.

(** [viewImages[view]] *)
Definition slot (v : ViewType.t) (vi : t) : option File :=
  match v with
  | ViewType.front => front vi
  | ViewType.back => back vi
  | ViewType.left => left vi
  | ViewType.right => right vi
  end.
End ViewImages.

(** *** Unchecked casts from [any]

    TypeScript lets the result of [response.json()] flow into a typed state
    cell without a check.  The conversion result is read by the render code
    at its declared type, so the cell is typed as declared and at that flow
    the model asks whether the value inhabits the declared interface; when
    it does not, the run is reported as [IllTyped] and the model says
    nothing further about it. *)

Module Cast.

Definition bind {A B : Type} (o : option A) (k : A -> option B) : option B :=
  match o with Some a => k a | None => None end.

Definition string_ (v : JsValue) : option string :=
  match v with JsString s => Some s | _ => None end.

Definition number (v : JsValue) : option Z :=
  match v with JsNumber n => Some n | _ => None end.

(** [T | null] *)
Definition nullable {A : Type} (c : JsValue -> option A) (v : JsValue)
  : option (option A) :=
  match v with JsNull => Some None | _ => option_map Some (c v) end.

(** an optional member [k?: T] *)
Definition optional {A : Type} (c : JsValue -> option A) (v : JsValue)
  : option (option A) :=
  match v with JsUndefined => Some None | _ => option_map Some (c v) end.

Fixpoint all {A B : Type} (c : A -> option B) (l : list A) : option (list B) :=
  match l with
  | [] => Some []
  | x :: rest =>
      bind (c x) (fun y => bind (all c rest) (fun ys => Some (y :: ys)))
  end.

(** [T[]], in the order received *)
Definition array {A : Type} (c : JsValue -> option A) (v : JsValue)
  : option (list A) :=
  match v with JsArray items => all c items | _ => None end.

(** [Record<string, string>] *)
Definition string_record (v : JsValue) : option (list (string * string)) :=
  match v with
  | JsObject fields =>
      all (fun kv => option_map (pair (fst kv)) (string_ (snd kv))) fields
  | _ => None
  end.

End Cast.

Module SavedModel.
Record t : Type :=
  { id : Z;
    task_id : string;
    name : string;
    description : option string;
    model_url : string;
    thumbnail_url : option string;
    view_config : option (list (string * string));
    created_at : string }.

Definition cast (v : JsValue) : option t :=
  match v with
  | JsObject f =>
      Cast.bind (Cast.number (JsVal.lookup "id" f)) (fun id_ =>
      Cast.bind (Cast.string_ (JsVal.lookup "task_id" f)) (fun task_id_ =>
      Cast.bind (Cast.string_ (JsVal.lookup "name" f)) (fun name_ =>
      Cast.bind (Cast.nullable Cast.string_ (JsVal.lookup "description" f)) (fun description_ =>
      Cast.bind (Cast.string_ (JsVal.lookup "model_url" f)) (fun model_url_ =>
      Cast.bind (Cast.nullable Cast.string_ (JsVal.lookup "thumbnail_url" f)) (fun thumbnail_url_ =>
      Cast.bind (Cast.nullable Cast.string_record (JsVal.lookup "view_config" f)) (fun view_config_ =>
      Cast.bind (Cast.string_ (JsVal.lookup "created_at" f)) (fun created_at_ =>
      Some {| id := id_; task_id := task_id_; name := name_;
              description := description_; model_url := model_url_;
              thumbnail_url := thumbnail_url_; view_config := view_config_;
              created_at := created_at_ |}))))))))
  | _ => None
  end.
End SavedModel.

Module ConversionResult.
Record t : Type :=
  { status : string;
    task_id : string;
    model_id : option Z;
    model_url : string;
    thumbnail_url : option string }.

Definition cast (v : JsValue) : option t :=
  match v with
  | JsObject f =>
      Cast.bind (Cast.string_ (JsVal.lookup "status" f)) (fun status_ =>
      Cast.bind (Cast.string_ (JsVal.lookup "task_id" f)) (fun task_id_ =>
      Cast.bind (Cast.optional Cast.number (JsVal.lookup "model_id" f)) (fun model_id_ =>
      Cast.bind (Cast.string_ (JsVal.lookup "model_url" f)) (fun model_url_ =>
      Cast.bind (Cast.optional Cast.string_ (JsVal.lookup "thumbnail_url" f)) (fun thumbnail_url_ =>
      Some {| status := status_; task_id := task_id_; model_id := model_id_;
              model_url := model_url_; thumbnail_url := thumbnail_url_ |})))))
  | _ => None
  end.
End ConversionResult.

(** *** The component state: one field per [useState] cell

    The cells are typed as declared, except [savedModels]: it is declared
    [SavedModel[]] but only ever written with a value of type [any] taken
    from a response, so it holds that value as received; [gallery_models]
    reads it
    at its declared type. *)

Inductive Tab : Type := create | gallery.

Record AppState : Type :=
  { activeTab : Tab;
    viewImages : ViewImages.t;
    modelName : string;
    isConverting : bool;
    conversionResult : option ConversionResult.t;
    error : option string;
    progress : string;
    savedModels : JsValue;
    selectedModel : option SavedModel.t;
    editingModel : option Z;
    editName : string;
    editDescription : string }.

(** The gallery snapshot as the list of saved models it is declared to be,
    when it is one. *)
Definition gallery_models (s : AppState) : option (list SavedModel.t) :=
  Cast.array SavedModel.cast (savedModels s).

(** The state of a freshly mounted component. *)
Definition initialState : AppState :=
  {| activeTab := create; viewImages := ViewImages.empty; modelName := "";
     isConverting := false; conversionResult := None; error := None;
     progress := ""; savedModels := JsArray []; selectedModel := None;
     editingModel := None; editName := ""; editDescription := "" |}.

(** Replacing one cell, the others kept: what a state setter does. *)
Definition with_viewImages (v : ViewImages.t) (s : AppState) : AppState :=
  {| activeTab := activeTab s; viewImages := v; modelName := modelName s;
     isConverting := isConverting s; conversionResult := conversionResult s;
     error := error s; progress := progress s; savedModels := savedModels s;
     selectedModel := selectedModel s; editingModel := editingModel s;
     editName := editName s; editDescription := editDescription s |}.

Definition with_modelName (v : string) (s : AppState) : AppState :=
  {| activeTab := activeTab s; viewImages := viewImages s; modelName := v;
     isConverting := isConverting s; conversionResult := conversionResult s;
     error := error s; progress := progress s; savedModels := savedModels s;
     selectedModel := selectedModel s; editingModel := editingModel s;
     editName := editName s; editDescription := editDescription s |}.

Definition with_isConverting (v : bool) (s : AppState) : AppState :=
  {| activeTab := activeTab s; viewImages := viewImages s;
     modelName := modelName s; isConverting := v;
     conversionResult := conversionResult s; error := error s;
     progress := progress s; savedModels := savedModels s;
     selectedModel := selectedModel s; editingModel := editingModel s;
     editName := editName s; editDescription := editDescription s |}.

Definition with_conversionResult (v : option ConversionResult.t) (s : AppState) : AppState :=
  {| activeTab := activeTab s; viewImages := viewImages s;
     modelName := modelName s; isConverting := isConverting s;
     conversionResult := v; error := error s; progress := progress s;
     savedModels := savedModels s; selectedModel := selectedModel s;
     editingModel := editingModel s; editName := editName s;
     editDescription := editDescription s |}.

Definition with_error (v : option string) (s : AppState) : AppState :=
  {| activeTab := activeTab s; viewImages := viewImages s;
     modelName := modelName s; isConverting := isConverting s;
     conversionResult := conversionResult s; error := v;
     progress := progress s; savedModels := savedModels s;
     selectedModel := selectedModel s; editingModel := editingModel s;
     editName := editName s; editDescription := editDescription s |}.

Definition with_progress (v : string) (s : AppState) : AppState :=
  {| activeTab := activeTab s; viewImages := viewImages s;
     modelName := modelName s; isConverting := isConverting s;
     conversionResult := conversionResult s; error := error s; progress := v;
     savedModels := savedModels s; selectedModel := selectedModel s;
     editingModel := editingModel s; editName := editName s;
     editDescription := editDescription s |}.

Definition with_savedModels (v : JsValue) (s : AppState) : AppState :=
  {| activeTab := activeTab s; viewImages := viewImages s;
     modelName := modelName s; isConverting := isConverting s;
     conversionResult := conversionResult s; error := error s;
     progress := progress s; savedModels := v;
     selectedModel := selectedModel s; editingModel := editingModel s;
     editName := editName s; editDescription := editDescription s |}.

Definition with_selectedModel (v : option SavedModel.t) (s : AppState) : AppState :=
  {| activeTab := activeTab s; viewImages := viewImages s;
     modelName := modelName s; isConverting := isConverting s;
     conversionResult := conversionResult s; error := error s;
     progress := progress s; savedModels := savedModels s;
     selectedModel := v; editingModel := editingModel s;
     editName := editName s; editDescription := editDescription s |}.

Definition with_editingModel (v : option Z) (s : AppState) : AppState :=
  {| activeTab := activeTab s; viewImages := viewImages s;
     modelName := modelName s; isConverting := isConverting s;
     conversionResult := conversionResult s; error := error s;
     progress := progress s; savedModels := savedModels s;
     selectedModel := selectedModel s; editingModel := v;
     editName := editName s; editDescription := editDescription s |}.

(** ** Effects *)

Inductive Method : Type := GET | POST | PUT | DELETE.

(** One field of a [FormData]. *)
Inductive FormEntry : Type :=
| FileEntry (f : File)
| TextEntry (s : string).

Inductive Body : Type :=
| NoBody
| FormData (fields : list (string * FormEntry))
| JsonText (v : JsValue).        (* [JSON.stringify(v)] *)

Record Request : Type :=
  { req_method : Method;
    req_url : string;
    req_headers : list (string * string);
    req_body : Body }.

Record Response : Type :=
  { resp_status : Z;
    resp_json : Outcome JsValue }.      (* what [response.json()] settles to *)

(** [response.ok]: the status is in the range 200-299. *)
Definition ok (r : Response) : bool :=
  ((200 <=? resp_status r) && (resp_status r <=? 299))%Z.

(** What a handler does to the world, in the order it does it. *)
Inductive Event : Type :=
| EFetch (r : Request)
| EConfirm (prompt : string)
| EConsoleError (label : string) (e : JsThrown).

(** How a piece of handler code ends. *)
Inductive Completion (A : Type) : Type :=
| Normal (a : A)
| Thrown (e : JsThrown)
| IllTyped.
Arguments Normal {A} a.
Arguments Thrown {A} e.
Arguments IllTyped {A}.

(** The live state cells and the trace so far. *)
Definition World : Type := (AppState * list Event)%type.

(** Handler code: a state-and-exception computation over [World]. *)
Definition Act (A : Type) : Type := World -> Completion A * World.

Module Act.

Definition ret {A : Type} (a : A) : Act A := fun w => (Normal a, w).

Definition bind {A B : Type} (m : Act A) (k : A -> Act B) : Act B :=
  fun w =>
    match m w with
    | (Normal a, w') => k a w'
    | (Thrown e, w') => (Thrown e, w')
    | (IllTyped, w') => (IllTyped, w')
    end.

(** [throw e] *)
Definition throw {A : Type} (e : JsThrown) : Act A := fun w => (Thrown e, w).

Definition ill_typed {A : Type} : Act A := fun w => (IllTyped, w).

(** [await p] for a promise that settles to [o]. *)
Definition await {A : Type} (o : Outcome A) : Act A :=
  match o with
  | Resolved a => ret a
  | Rejected e => throw e
  end.

(** A state setter called with a value. *)
Definition set (f : AppState -> AppState) : Act unit :=
  fun w => (Normal tt, (f (fst w), snd w)).

Definition emit (e : Event) : Act unit :=
  fun w => (Normal tt, (fst w, (snd w ++ [e])%list)).

(** [try { body } catch (err) { handler err }] *)
Definition try_catch {A : Type} (body : Act A) (handler : JsThrown -> Act A)
  : Act A :=
  fun w =>
    match body w with
    | (Thrown e, w') => handler e w'
    | r => r
    end.

(** [try { body } finally { fin }], for a [fin] that ends normally. *)
Definition finally {A : Type} (body : Act A) (fin : Act unit) : Act A :=
  fun w =>
    match body w with
    | (IllTyped, w') => (IllTyped, w')
    | (c, w') =>
        match fin w' with
        | (Normal _, w'') => (c, w'')
        | (Thrown e, w'') => (Thrown e, w'')
        | (IllTyped, w'') => (IllTyped, w'')
        end
    end.

End Act.

Declare Scope act_scope.
Delimit Scope act_scope with act.
Notation "x <- m ;; k" := (Act.bind m (fun x => k))
  (at level 61, m at next level, right associativity) : act_scope.
Notation "m ;; k" := (Act.bind m (fun _ => k))
  (at level 61, right associativity) : act_scope.

(** Running a handler that was created by the render of state [s]: the
    handler's closure reads [s], its setters write the live cells. *)
Definition run {A : Type} (handler : AppState -> Act A) (s : AppState)
  : Completion A * World :=
  handler s (s, []).

Definition final_state {A : Type} (r : Completion A * World) : AppState :=
  fst (snd r).

Definition trace {A : Type} (r : Completion A * World) : list Event :=
  snd (snd r).

Definition completion {A : Type} (r : Completion A * World) : Completion A :=
  fst r.

(** The requests of a trace, in order. *)
Definition requests (tr : list Event) : list Request :=
  flat_map (fun e => match e with EFetch r => [r] | _ => [] end) tr.

(** ** The handlers of [App] *)

Section App.

Local Open Scope act_scope.

(** [const API_BASE = import.meta.env.VITE_API_URL || ''] *)
Variable API_BASE : string.

(** The backing service: how the promise returned by [fetch(request)]
    settles. *)
Variable net : Request -> Outcome Response.

(** The user's answer to [confirm(prompt)]. *)
Variable confirm_answer : string -> bool.

(** [await fetch(url, init)] *)
Definition fetch (r : Request) : Act Response :=
  Act.emit (EFetch r) ;; Act.await (net r).

(** [confirm(prompt)] *)
Definition confirm (prompt : string) : Act bool :=
  Act.emit (EConfirm prompt) ;; Act.ret (confirm_answer prompt).

(** [console.error(label, err)] *)
Definition console_error (label : string) (err : JsThrown) : Act unit :=
  Act.emit (EConsoleError label err).

(** The setters.  [setSavedModels] and [setConversionResult_any] receive a
    value of type [any]. *)
Definition setViewImages v := Act.set (with_viewImages v).
Definition setModelName v := Act.set (with_modelName v).
Definition setIsConverting v := Act.set (with_isConverting v).
Definition setConversionResult v := Act.set (with_conversionResult v).
Definition setError v := Act.set (with_error v).
Definition setProgress v := Act.set (with_progress v).
Definition setSavedModels v := Act.set (with_savedModels v).
Definition setSelectedModel v := Act.set (with_selectedModel v).
Definition setEditingModel v := Act.set (with_editingModel v).

Definition setConversionResult_any (v : JsValue) : Act unit :=
  match Cast.nullable ConversionResult.cast v with
  | Some result => setConversionResult result
  | None => Act.ill_typed
  end.

(** *** [fetchModels]

    [fetch(`${API_BASE}/api/models`)] *)
Definition list_request : Request :=
  {| req_method := GET; req_url := API_BASE ++ "/api/models";
     req_headers := []; req_body := NoBody |}.

(** What [fetchModels] does once the promise of its request has settled
    to [o]. *)
Definition fetchModels_resume (o : Outcome Response) : Act unit :=
  Act.try_catch
    (response <- Act.await o ;;
     data <- Act.await (resp_json response) ;;
     models <- Act.await (JsVal.get data "models") ;;
     setSavedModels (JsVal.or models (JsArray [])))
    (fun err => console_error "Failed to fetch models:" err).

(** A call [fetchModels()] that is not awaited: the request leaves at
    once; [fetchModels_resume] runs when the response arrives, after the
    calling handler has finished its synchronous code. *)
Definition fetchModels_call : Act unit := Act.emit (EFetch list_request).

(** [fetchModels] run to completion (the mount effect). *)
Definition fetchModels (_ : AppState) : Act unit :=
  fetchModels_call ;; fetchModels_resume (net list_request).

(** *** [clearAllViews] *)
Definition clearAllViews (_ : AppState) : Act unit :=
  setViewImages ViewImages.empty ;;
  setModelName "" ;;
  setConversionResult None ;;
  setError None.

(** *** [handleConvert] *)

(** [if (file) formData.append(key, file)] *)
Definition append_file (key : string) (file : option File)
           (formData : list (string * FormEntry)) : list (string * FormEntry) :=
  match file with
  | Some f => (formData ++ [(key, FileEntry f)])%list
  | None => formData
  end.

(** [if (modelName) formData.append('name', modelName)] *)
Definition append_name (modelName : string)
           (formData : list (string * FormEntry)) : list (string * FormEntry) :=
  if Js.truthy_string modelName
  then (formData ++ [("name", TextEntry modelName)])%list
  else formData.

(** The [FormData] assembled from the slots and the name, [front] being
    the file found in the front slot. *)
Definition convert_formData (front : File) (vi : ViewImages.t) (modelName : string)
  : list (string * FormEntry) :=
  append_name modelName
    (append_file "right" (ViewImages.right vi)
      (append_file "left" (ViewImages.left vi)
        (append_file "back" (ViewImages.back vi)
          [("front", FileEntry front)]))).

(** [[front, back, left, right].filter(Boolean).length] *)
Definition viewCount (vi : ViewImages.t) : nat :=
  length (filter (fun o : option File => match o with Some _ => true | None => false end)
                 [ViewImages.front vi; ViewImages.back vi;
                  ViewImages.left vi; ViewImages.right vi]).

Definition convert_request (formData : list (string * FormEntry)) : Request :=
  {| req_method := POST; req_url := API_BASE ++ "/api/convert-multiview";
     req_headers := []; req_body := FormData formData |}.

(** [err instanceof Error ? err.message : 'An error occurred'] *)
Definition error_text (err : JsThrown) : string :=
  match err with
  | JsError _ message => message
  | JsNonError _ => "An error occurred"
  end.

Definition handleConvert (c : AppState) : Act unit :=
  match ViewImages.front (viewImages c) with
  | None => setError (Some "Front view image is required")
  | Some front =>
      setIsConverting true ;;
      setError None ;;
      setProgress "Uploading images..." ;;
      Act.finally
        (Act.try_catch
           (let formData := convert_formData front (viewImages c) (modelName c) in
            setProgress ("Processing " ++ Js.string_of_nat (viewCount (viewImages c))
                         ++ " view(s) with Tripo3D (30-90 seconds)...") ;;
            response <- fetch (convert_request formData) ;;
            if negb (ok response) then
              errorData <- Act.await (resp_json response) ;;
              detail <- Act.await (JsVal.get errorData "detail") ;;
              err <- Act.await (JsVal.new_Error
                                  (JsVal.or detail (JsString "Conversion failed"))) ;;
              Act.throw err
            else
              result <- Act.await (resp_json response) ;;
              setConversionResult_any result ;;
              setProgress "" ;;
              fetchModels_call)
           (fun err =>
              setError (Some (error_text err)) ;;
              setProgress ""))
        (setIsConverting false)
  end.

(** *** [handleDeleteModel] *)

Definition model_request (m : Method) (modelId : Z) (headers : list (string * string))
           (body : Body) : Request :=
  {| req_method := m; req_url := API_BASE ++ "/api/models/" ++ Js.string_of_Z modelId;
     req_headers := headers; req_body := body |}.

(** [selectedModel?.id === modelId] *)
Definition selected_is (c : AppState) (modelId : Z) : bool :=
  match selectedModel c with
  | Some m => (SavedModel.id m =? modelId)%Z
  | None => false
  end.

Definition handleDeleteModel (modelId : Z) (c : AppState) : Act unit :=
  answer <- confirm "Are you sure you want to delete this model?" ;;
  if negb answer then Act.ret tt
  else
    Act.try_catch
      (_ <- fetch (model_request DELETE modelId [] NoBody) ;;
       fetchModels_call ;;
       if selected_is c modelId then setSelectedModel None else Act.ret tt)
      (fun err => console_error "Failed to delete model:" err).

(** *** [handleUpdateModel] *)
Definition handleUpdateModel (modelId : Z) (c : AppState) : Act unit :=
  Act.try_catch
    (_ <- fetch (model_request PUT modelId
                   [("Content-Type", "application/json")]
                   (JsonText (JsObject [("name", JsString (editName c));
                                        ("description", JsString (editDescription c))]))) ;;
     setEditingModel None ;;
     fetchModels_call)
    (fun err => console_error "Failed to update model:" err).

(** *** [displayModelUrl] *)

(** The second alternative of the conditional: the selected model. *)
Definition selected_asset (s : AppState) : option string :=
  match selectedModel s with
  | Some m =>
      if Js.truthy_string (SavedModel.model_url m)
      then getProxyUrl API_BASE (SavedModel.model_url m)
      else None
  | None => None
  end.

Definition displayModelUrl (s : AppState) : option string :=
  match conversionResult s with
  | Some r =>
      if Js.truthy_string (ConversionResult.model_url r)
      then getProxyUrl API_BASE (ConversionResult.model_url r)
      else selected_asset s
  | None => selected_asset s
  end.

End App.

(** ** The remaining state glue of [App] and [ViewUploadField] *)

Definition with_activeTab (v : Tab) (s : AppState) : AppState :=
  {| activeTab := v; viewImages := viewImages s;
     modelName := modelName s; isConverting := isConverting s;
     conversionResult := conversionResult s; error := error s;
     progress := progress s; savedModels := savedModels s;
     selectedModel := selectedModel s; editingModel := editingModel s;
     editName := editName s; editDescription := editDescription s |}.

Definition with_editName (v : string) (s : AppState) : AppState :=
  {| activeTab := activeTab s; viewImages := viewImages s;
     modelName := modelName s; isConverting := isConverting s;
     conversionResult := conversionResult s; error := error s;
     progress := progress s; savedModels := savedModels s;
     selectedModel := selectedModel s; editingModel := editingModel s;
     editName := v; editDescription := editDescription s |}.

Definition with_editDescription (v : string) (s : AppState) : AppState :=
  {| activeTab := activeTab s; viewImages := viewImages s;
     modelName := modelName s; isConverting := isConverting s;
     conversionResult := conversionResult s; error := error s;
     progress := progress s; savedModels := savedModels s;
     selectedModel := selectedModel s; editingModel := editingModel s;
     editName := editName s; editDescription := v |}.

Section Controls.

Local Open Scope act_scope.

Variable API_BASE : string.

(** [{ ...prev, [view]: file }] *)
Definition set_slot (view : ViewType.t) (file : option File) (prev : ViewImages.t)
  : ViewImages.t :=
  match view with
  | ViewType.front =>
      {| ViewImages.front := file; ViewImages.back := ViewImages.back prev;
         ViewImages.left := ViewImages.left prev;
         ViewImages.right := ViewImages.right prev |}
  | ViewType.back =>
      {| ViewImages.front := ViewImages.front prev; ViewImages.back := file;
         ViewImages.left := ViewImages.left prev;
         ViewImages.right := ViewImages.right prev |}
  | ViewType.left =>
      {| ViewImages.front := ViewImages.front prev;
         ViewImages.back := ViewImages.back prev; ViewImages.left := file;
         ViewImages.right := ViewImages.right prev |}
  | ViewType.right =>
      {| ViewImages.front := ViewImages.front prev;
         ViewImages.back := ViewImages.back prev;
         ViewImages.left := ViewImages.left prev; ViewImages.right := file |}
  end.

(** [handleViewFileChange]: the setter is given an updater, which is
    applied to the live cell. *)
Definition handleViewFileChange (view : ViewType.t) (file : option File)
           (_ : AppState) : Act unit :=
  Act.set (fun s => with_viewImages (set_slot view file (viewImages s)) s).

(** [onDrop] of the upload field of [view], whose [onFileChange] is
    [handleViewFileChange]. *)
Definition onDrop (view : ViewType.t) (acceptedFiles : list File) (c : AppState)
  : Act unit :=
  match acceptedFiles with
  | first :: _ => handleViewFileChange view (Some first) c
  | [] => Act.ret tt
  end.

(** The remove button of an upload field: [onFileChange(view, null)]. *)
Definition removeFile (view : ViewType.t) (c : AppState) : Act unit :=
  handleViewFileChange view None c.

(** [disabled={!viewImages.front || isConverting}] of the Convert button. *)
Definition convert_disabled (s : AppState) : bool :=
  negb (match ViewImages.front (viewImages s) with Some _ => true | None => false end)
  || isConverting s.

(** The code of [handleConvert] that runs before its [await fetch(...)],
    for a front photograph [front]: the request has left, nothing has
    come back. *)
Definition handleConvert_begin (front : File) (c : AppState) : Act unit :=
  setIsConverting true ;;
  setError None ;;
  setProgress "Uploading images..." ;;
  setProgress ("Processing " ++ Js.string_of_nat (viewCount (viewImages c))
               ++ " view(s) with Tripo3D (30-90 seconds)...") ;;
  Act.emit (EFetch (convert_request API_BASE
                      (convert_formData front (viewImages c) (modelName c)))).

(** The code of [handleConvert] that runs once the promise of its request
    has settled to [o]. *)
Definition handleConvert_settle (o : Outcome Response) : Act unit :=
  Act.finally
    (Act.try_catch
       (response <- Act.await o ;;
        if negb (ok response) then
          errorData <- Act.await (resp_json response) ;;
          detail <- Act.await (JsVal.get errorData "detail") ;;
          err <- Act.await (JsVal.new_Error
                              (JsVal.or detail (JsString "Conversion failed"))) ;;
          Act.throw err
        else
          result <- Act.await (resp_json response) ;;
          setConversionResult_any result ;;
          setProgress "" ;;
          fetchModels_call API_BASE)
       (fun err =>
          setError (Some (error_text err)) ;;
          setProgress ""))
    (setIsConverting false).

(** Clicking a gallery card:
    [() => { setSelectedModel(model); setConversionResult(null); }] *)
Definition selectModel (model : SavedModel.t) (_ : AppState) : Act unit :=
  setSelectedModel (Some model) ;;
  setConversionResult None.

(** [description || ''] for a [string | null]. *)
Definition description_or_empty (description : option string) : string :=
  match description with
  | Some d => if Js.truthy_string d then d else ""
  | None => ""
  end.

(** The edit button of a gallery card. *)
Definition startEdit (model : SavedModel.t) (_ : AppState) : Act unit :=
  setEditingModel (Some (SavedModel.id model)) ;;
  Act.set (with_editName (SavedModel.name model)) ;;
  Act.set (with_editDescription (description_or_empty (SavedModel.description model))).

(** Typing in the two edit fields. *)
Definition typeEditName (value : string) (_ : AppState) : Act unit :=
  Act.set (with_editName value).

Definition typeEditDescription (value : string) (_ : AppState) : Act unit :=
  Act.set (with_editDescription value).

(** The Cancel button of a card in edit mode. *)
Definition cancelEdit (_ : AppState) : Act unit :=
  setEditingModel None.

(** The address the Download button of the preview opens:
    [conversionResult?.model_url || selectedModel?.model_url], [None] being
    [undefined]. *)
Definition download_target (s : AppState) : option string :=
  match conversionResult s with
  | Some r =>
      if Js.truthy_string (ConversionResult.model_url r)
      then Some (ConversionResult.model_url r)
      else option_map SavedModel.model_url (selectedModel s)
  | None => option_map SavedModel.model_url (selectedModel s)
  end.

(** A [string | null] used as a condition in the markup: the address, if
    it is truthy. *)
Definition shown (address : option string) : option string :=
  match address with
  | Some u => if Js.truthy_string u then Some u else None
  | None => None
  end.

(** The address given to the viewer of the Create tab
    ([displayModelUrl ? ... : ...]) and of the Gallery tab
    ([selectedModel && displayModelUrl ? ... : ...]), if the viewer is
    rendered. *)
Definition create_preview (s : AppState) : option string :=
  shown (displayModelUrl API_BASE s).

Definition gallery_preview (s : AppState) : option string :=
  match selectedModel s with
  | Some _ => shown (displayModelUrl API_BASE s)
  | None => None
  end.

End Controls.

(** ** The properties under study, as statements about the handlers *)

(** The file fields of a form, in order. *)
Definition file_fields (formData : list (string * FormEntry)) : list (string * File) :=
  flat_map (fun kv => match snd kv with
                      | FileEntry f => [(fst kv, f)]
                      | TextEntry _ => []
                      end) formData.

(** The text fields of a form, in order. *)
Definition text_fields (formData : list (string * FormEntry)) : list (string * string) :=
  flat_map (fun kv => match snd kv with
                      | FileEntry _ => []
                      | TextEntry t => [(fst kv, t)]
                      end) formData.

(** The non-empty view slots, each under its viewpoint's key. *)
Definition filled_slots (vi : ViewImages.t) : list (string * File) :=
  flat_map (fun v => match ViewImages.slot v vi with
                     | Some f => [(ViewType.key v, f)]
                     | None => []
                     end)
           [ViewType.front; ViewType.back; ViewType.left; ViewType.right].

(** Whether a request is the gallery read [GET ${API_BASE}/api/models]. *)
Definition is_list_request (API_BASE : string) (r : Request) : bool :=
  match req_method r with
  | GET => String.eqb (req_url r) (API_BASE ++ "/api/models")
  | _ => false
  end.

(** The number of gallery refreshes a trace triggers. *)
Definition refresh_count (API_BASE : string) (tr : list Event) : nat :=
  length (filter (is_list_request API_BASE) (requests tr)).

(** The [detail] member of a response body, when the body has one. *)
Definition body_detail (resp : Response) : option JsValue :=
  match resp_json resp with
  | Resolved (JsObject fields) =>
      match JsVal.lookup "detail" fields with
      | JsUndefined => None
      | d => Some d
      end
  | _ => None
  end.

(** "The surfaced message equals the body's [detail] field when present,
    else the fixed fallback string", for the run of [handleConvert] from
    [s] against [net]. *)
Definition surfaces_detail_or_fallback
           (API_BASE : string) (net : Request -> Outcome Response) (s : AppState) : Prop :=
  forall front resp,
    ViewImages.front (viewImages s) = Some front ->
    net (convert_request API_BASE
           (convert_formData front (viewImages s) (modelName s))) = Resolved resp ->
    ok resp = false ->
    match body_detail resp with
    | Some d =>
        exists msg, d = JsString msg
                    /\ error (final_state (run (handleConvert API_BASE net) s)) = Some msg
    | None =>
        error (final_state (run (handleConvert API_BASE net) s)) = Some "Conversion failed"
    end.

(** "clearAll resets the four slots, the result and the error, performs no
    I/O, and leaves all other state unchanged." *)
Definition clearAll_resets_only_views_result_error (s : AppState) : Prop :=
  let r := run clearAllViews s in
  let s' := final_state r in
  (viewImages s' = ViewImages.empty /\ conversionResult s' = None /\ error s' = None)
  /\ trace r = []
  /\ (savedModels s' = savedModels s /\ selectedModel s' = selectedModel s
      /\ editingModel s' = editingModel s /\ editName s' = editName s
      /\ editDescription s' = editDescription s /\ activeTab s' = activeTab s
      /\ progress s' = progress s /\ isConverting s' = isConverting s
      /\ modelName s' = modelName s).

(** "For a confirmed delete: the selection is cleared if [modelId] is the
    selected model's, left unchanged otherwise, and a fresh list() is
    triggered." *)
Definition delete_clears_and_refreshes
           (API_BASE : string) (net : Request -> Outcome Response)
           (s : AppState) (modelId : Z) : Prop :=
  let r := run (handleDeleteModel API_BASE net (fun _ => true) modelId) s in
  (selected_is s modelId = true -> selectedModel (final_state r) = None)
  /\ (selected_is s modelId = false -> selectedModel (final_state r) = selectedModel s)
  /\ refresh_count API_BASE (trace r) = 1.

(** "For every update, edit mode is exited and a fresh list() is triggered,
    on any outcome of the request." *)
Definition update_exits_and_refreshes
           (API_BASE : string) (net : Request -> Outcome Response)
           (s : AppState) (modelId : Z) : Prop :=
  let r := run (handleUpdateModel API_BASE net modelId) s in
  editingModel (final_state r) = None
  /\ refresh_count API_BASE (trace r) = 1.

(** The [models] member of a response body, when the body has one. *)
Definition body_models (body : JsValue) : option JsValue :=
  match body with
  | JsObject fields =>
      match JsVal.lookup "models" fields with
      | JsUndefined => None
      | models => Some models
      end
  | _ => None
  end.

(** "Whenever the round-trip completes and the body parses as JSON, the
    snapshot is replaced by the body's [models] when present and by the
    empty list otherwise." *)
Definition list_replaces_snapshot
           (API_BASE : string) (net : Request -> Outcome Response) (s : AppState) : Prop :=
  forall resp body,
    net (list_request API_BASE) = Resolved resp ->
    resp_json resp = Resolved body ->
    savedModels (final_state (run (fetchModels API_BASE net) s))
    = match body_models body with
      | Some models => models
      | None => JsArray []
      end.

(** The displayed asset as the specification words it: the asset of the
    active conversion result if there is one, else that of the selected
    saved model, else none; an empty address counts as no asset. *)
Definition asset_of (API_BASE : string) (model_url : option string) : option string :=
  match model_url with
  | Some url => getProxyUrl API_BASE url
  | None => None
  end.

Definition first_present {A : Type} (a b : option A) : option A :=
  match a with Some x => Some x | None => b end.

Definition displayed_asset_spec (API_BASE : string)
           (result : option ConversionResult.t) (selected : option SavedModel.t)
  : option string :=
  first_present
    (asset_of API_BASE (option_map ConversionResult.model_url result))
    (asset_of API_BASE (option_map SavedModel.model_url selected)).

(** The request a submission from [s] sends, [front] being its front
    photograph. *)
Definition submitted_request (API_BASE : string) (front : File) (s : AppState)
  : Request :=
  convert_request API_BASE (convert_formData front (viewImages s) (modelName s)).

(** The cells after a conversion attempt that failed with [msg], and after
    one that produced [result]. *)
Definition convert_failed (msg : string) (s : AppState) : AppState :=
  with_isConverting false (with_progress "" (with_error (Some msg) s)).

Definition convert_succeeded (result : option ConversionResult.t) (s : AppState)
  : AppState :=
  with_isConverting false
    (with_progress "" (with_conversionResult result (with_error None s))).

(** Symbolic execution of handler code: unfold the combinators, then use
    what is known about the service. *)
Ltac act_eval :=
  cbv beta iota zeta delta
    [Act.finally Act.try_catch Act.bind fetch confirm console_error
     fetchModels_call setConversionResult_any
     setViewImages setModelName setIsConverting setConversionResult setError
     setProgress setSavedModels setSelectedModel setEditingModel
     Act.emit Act.await Act.throw Act.ret Act.ill_typed Act.set
     fst snd app negb].

Ltac act_step H := rewrite H; act_eval.

(** ** Concrete situations *)

Module Scenario.

Definition photo (name : string) : File :=
  {| file_name := name; file_bytes := "" |}.

Definition views (front back left right : option File) : ViewImages.t :=
  {| ViewImages.front := front; ViewImages.back := back;
     ViewImages.left := left; ViewImages.right := right |}.

(** Only the front photograph chosen. *)
Definition front_only : AppState :=
  with_viewImages (views (Some (photo "front.png")) None None None) initialState.

(** All four photographs chosen. *)
Definition four_views : AppState :=
  with_viewImages
    (views (Some (photo "front.png")) (Some (photo "back.png"))
           (Some (photo "left.png")) (Some (photo "right.png")))
    initialState.

(** A name typed in, nothing else. *)
Definition named : AppState := with_modelName "chair" initialState.

Definition chair : SavedModel.t :=
  {| SavedModel.id := 7; SavedModel.task_id := "t-7"; SavedModel.name := "chair";
     SavedModel.description := None;
     SavedModel.model_url := "https://cdn.example.com/chair.glb";
     SavedModel.thumbnail_url := None; SavedModel.view_config := None;
     SavedModel.created_at := "2024-01-01T00:00:00" |}.

Definition chair_json : JsValue :=
  JsObject [("id", JsNumber 7); ("task_id", JsString "t-7");
            ("name", JsString "chair"); ("description", JsNull);
            ("model_url", JsString "https://cdn.example.com/chair.glb");
            ("thumbnail_url", JsNull); ("view_config", JsNull);
            ("created_at", JsString "2024-01-01T00:00:00")].

(** The gallery shows the chair and it is selected. *)
Definition chair_selected : AppState :=
  with_selectedModel (Some chair) (with_savedModels (JsArray [chair_json]) initialState).

(** The chair is being edited. *)
Definition chair_edited : AppState :=
  with_editingModel (Some 7%Z) (with_savedModels (JsArray [chair_json]) initialState).

(** No request completes. *)
Definition net_down (_ : Request) : Outcome Response :=
  Rejected (JsError "TypeError" "Failed to fetch").

Definition answering (m : Method) (resp : Response) (r : Request) : Outcome Response :=
  match m, req_method r with
  | GET, GET | POST, POST | PUT, PUT | DELETE, DELETE => Resolved resp
  | _, _ => net_down r
  end.

(** Convert answers HTTP 500 with [{"detail":"quota exceeded"}]. *)
Definition quota_response : Response :=
  {| resp_status := 500;
     resp_json := Resolved (JsObject [("detail", JsString "quota exceeded")]) |}.
Definition net_quota := answering POST quota_response.

(** Convert answers HTTP 502 with a body that is not JSON. *)
Definition bad_gateway_response : Response :=
  {| resp_status := 502;
     resp_json := Rejected (JsError "SyntaxError"
                              "Unexpected token < in JSON at position 0") |}.
Definition net_bad_gateway := answering POST bad_gateway_response.

(** Convert answers HTTP 200 with a conversion result. *)
Definition result_json : JsValue :=
  JsObject [("status", JsString "success"); ("task_id", JsString "t-8");
            ("model_id", JsNumber 8);
            ("model_url", JsString "https://cdn.example.com/8.glb")].
Definition success_response : Response :=
  {| resp_status := 200; resp_json := Resolved result_json |}.
Definition net_success := answering POST success_response.

(** The model endpoints answer HTTP 500. *)
Definition server_error_response : Response :=
  {| resp_status := 500;
     resp_json := Resolved (JsObject [("detail", JsString "Internal Server Error")]) |}.
Definition net_delete_fails := answering DELETE server_error_response.
Definition net_update_fails := answering PUT server_error_response.

(** The list endpoint answers with the JSON text [null]. *)
Definition null_response : Response :=
  {| resp_status := 200; resp_json := Resolved JsNull |}.
Definition net_null_list := answering GET null_response.

(** The list endpoint answers HTTP 500, with a [models] member all the same. *)
Definition models_500_response : Response :=
  {| resp_status := 500;
     resp_json := Resolved (JsObject [("models", JsArray [chair_json])]) |}.
Definition net_models_500 := answering GET models_500_response.

End Scenario.

(** * Theorems *)

(** ** Strings *)

Lemma truthy_string_nonempty (s : string) :
  Js.truthy_string s = true <-> s <> "".
Proof.
  destruct s; simpl; split; intro H; try reflexivity; try discriminate.
  now elim H.
Qed.

Lemma all_chars_app (p : ascii -> bool) (s t : string) :
  Js.all_chars p (s ++ t) = Js.all_chars p s && Js.all_chars p t.
Proof.
  induction s as [| c s IH]; simpl; [reflexivity |].
  now rewrite IH, andb_assoc.
Qed.

Lemma percent_encode_safe (c : ascii) :
  Js.all_chars Js.uri_safe (Js.percent_encode c) = true.
Proof.
  destruct c as [[] [] [] [] [] [] [] []]; vm_compute; reflexivity.
Qed.

Lemma encodeURIComponent_safe (s : string) :
  Js.all_chars Js.uri_safe (Js.encodeURIComponent s) = true.
Proof.
  induction s as [| c s IH]; [reflexivity |].
  cbn [Js.encodeURIComponent].
  destruct (Js.uri_unreserved c) eqn:Hc.
  - cbn [Js.all_chars]. unfold Js.uri_safe at 1. now rewrite Hc, IH.
  - now rewrite all_chars_app, percent_encode_safe, IH.
Qed.

Lemma prefix_trans (p q s : string) :
  String.prefix p q = true -> String.prefix q s = true -> String.prefix p s = true.
Proof.
  revert q s.
  induction p as [| a p IH]; intros q s Hpq Hqs; [now destruct s |].
  destruct q as [| b q]; [discriminate |].
  destruct s as [| c s]; [discriminate |].
  simpl in *.
  destruct (ascii_dec a b) as [-> |]; [| discriminate].
  destruct (ascii_dec b c) as [-> |]; [| discriminate].
  destruct (ascii_dec c c); [| congruence].
  eauto.
Qed.

(** ** Asset addresses *)

(** C4.  [getProxyUrl] returns an address that is not empty and does not
    start with [http] unchanged, so that resolving it again changes
    nothing; it rewrites every address that starts with [http] (every
    [http://] and [https://] URL among them) to
    [API_BASE/api/proxy-glb?url=<encoded>], where the encoded address
    consists of URI-safe characters only; and it maps the empty address
    to [null]. *)
Theorem getProxyUrl_spec (API_BASE : string) :
  (forall x, x <> "" -> Js.startsWith x "http" = false ->
     getProxyUrl API_BASE x = Some x
     /\ asset_of API_BASE (getProxyUrl API_BASE x) = getProxyUrl API_BASE x)
  /\ (forall x, Js.startsWith x "http" = true ->
        getProxyUrl API_BASE x
        = Some (API_BASE ++ "/api/proxy-glb?url=" ++ Js.encodeURIComponent x)
        /\ Js.all_chars Js.uri_safe (Js.encodeURIComponent x) = true)
  /\ (forall x, Js.startsWith x "http://" = true \/ Js.startsWith x "https://" = true ->
        Js.startsWith x "http" = true)
  /\ getProxyUrl API_BASE "" = None.
Proof.
  assert (plain : forall x, x <> "" -> Js.startsWith x "http" = false ->
                            getProxyUrl API_BASE x = Some x).
  { intros x Hne Hpre. unfold getProxyUrl.
    apply truthy_string_nonempty in Hne. now rewrite Hne, Hpre. }
  repeat split.
  - now apply plain.
  - rewrite (plain x) by assumption. simpl. now apply plain.
  - unfold getProxyUrl, proxy_form.
    destruct x as [| c x]; [discriminate |]. simpl Js.truthy_string.
    now rewrite H.
  - apply encodeURIComponent_safe.
  - intros x [H | H]; unfold Js.startsWith in *.
    + now apply (prefix_trans "http" "http://" x).
    + now apply (prefix_trans "http" "https://" x).
Qed.

Lemma getProxyUrl_spec_witness :
  getProxyUrl "" "/static/models/7.glb" = Some "/static/models/7.glb"
  /\ getProxyUrl "" "https://cdn.example.com/a b.glb"
     = Some "/api/proxy-glb?url=https%3A%2F%2Fcdn.example.com%2Fa%20b.glb".
Proof.
  split.
  - apply (proj1 (getProxyUrl_spec "") "/static/models/7.glb");
      [discriminate | reflexivity].
  - apply (proj1 (proj2 (getProxyUrl_spec "")) "https://cdn.example.com/a b.glb").
    reflexivity.
Defined.

Lemma getProxyUrl_nonempty (API_BASE x : string) :
  x <> "" -> exists y, getProxyUrl API_BASE x = Some y.
Proof.
  intro Hne. apply truthy_string_nonempty in Hne.
  unfold getProxyUrl. rewrite Hne. simpl. eauto.
Qed.

Lemma asset_of_present (API_BASE x : string) (b : option string) :
  x <> "" ->
  first_present (asset_of API_BASE (Some x)) b = getProxyUrl API_BASE x.
Proof.
  intro Hne. destruct (getProxyUrl_nonempty API_BASE x Hne) as [y Hy].
  simpl. now rewrite Hy.
Qed.

(** C5.  The displayed address is a function of the conversion result and
    the selected model alone (the state has no cell that holds it): it is
    the proxied address of the result when there is one with a non-empty
    [model_url]; else the proxied address of the selected model when there
    is one with a non-empty [model_url]; else none. *)
Theorem displayModelUrl_derived (API_BASE : string) :
  (forall s, displayModelUrl API_BASE s
             = displayed_asset_spec API_BASE (conversionResult s) (selectedModel s))
  /\ (forall s r, conversionResult s = Some r ->
                  ConversionResult.model_url r <> "" ->
                  displayModelUrl API_BASE s
                  = getProxyUrl API_BASE (ConversionResult.model_url r)
                  /\ displayModelUrl API_BASE s <> None)
  /\ (forall s m,
         (conversionResult s = None
          \/ option_map ConversionResult.model_url (conversionResult s) = Some "") ->
         selectedModel s = Some m ->
         SavedModel.model_url m <> "" ->
         displayModelUrl API_BASE s = getProxyUrl API_BASE (SavedModel.model_url m)
         /\ displayModelUrl API_BASE s <> None)
  /\ (forall s,
         (conversionResult s = None
          \/ option_map ConversionResult.model_url (conversionResult s) = Some "") ->
         (selectedModel s = None
          \/ option_map SavedModel.model_url (selectedModel s) = Some "") ->
         displayModelUrl API_BASE s = None).
Proof.
  assert (sel : forall s, selected_asset API_BASE s
                          = asset_of API_BASE (option_map SavedModel.model_url (selectedModel s))).
  { intro s. unfold selected_asset.
    destruct (selectedModel s) as [m |]; [| reflexivity].
    simpl. now destruct (SavedModel.model_url m). }
  assert (eqn : forall s, displayModelUrl API_BASE s
                = displayed_asset_spec API_BASE (conversionResult s) (selectedModel s)).
  { intro s. unfold displayModelUrl, displayed_asset_spec. rewrite sel.
    destruct (conversionResult s) as [r |]; [| reflexivity].
    cbn [option_map].
    destruct (ConversionResult.model_url r) as [| c u] eqn:Hu; [reflexivity |].
    cbn [Js.truthy_string]. now rewrite asset_of_present. }
  split; [exact eqn |].
  split; [| split].
  - intros s r Hr Hne. rewrite eqn, Hr. unfold displayed_asset_spec.
    cbn [option_map]. rewrite asset_of_present by assumption.
    split; [reflexivity |].
    destruct (getProxyUrl_nonempty API_BASE _ Hne) as [y ->]. discriminate.
  - intros s m Hres Hm Hne. rewrite eqn, Hm. unfold displayed_asset_spec.
    assert (Hnone : asset_of API_BASE
                      (option_map ConversionResult.model_url (conversionResult s)) = None).
    { destruct Hres as [-> | ->]; reflexivity. }
    rewrite Hnone. cbn [first_present option_map asset_of].
    split; [reflexivity |].
    destruct (getProxyUrl_nonempty API_BASE _ Hne) as [y ->]. discriminate.
  - intros s Hres Hsel. rewrite eqn. unfold displayed_asset_spec.
    assert (Hnone : asset_of API_BASE
                      (option_map ConversionResult.model_url (conversionResult s)) = None).
    { destruct Hres as [-> | ->]; reflexivity. }
    rewrite Hnone. cbn [first_present].
    destruct Hsel as [-> | ->]; reflexivity.
Qed.

Lemma displayModelUrl_derived_witness :
  displayModelUrl "" Scenario.chair_selected
  = Some "/api/proxy-glb?url=https%3A%2F%2Fcdn.example.com%2Fchair.glb".
Proof.
  apply (proj1 (proj1 (proj2 (proj2 (displayModelUrl_derived "")))
                  Scenario.chair_selected Scenario.chair
                  (or_introl eq_refl) eq_refl
                  (fun H : SavedModel.model_url Scenario.chair = "" =>
                     eq_ind (SavedModel.model_url Scenario.chair)
                            (fun t => match t with EmptyString => False | _ => True end)
                            I "" H))).
Defined.

(** ** The view slots *)

(** C6 (as amended).  [clearAllViews] empties the four slots, the model
    name, the conversion result and the error, performs no effect at all,
    and leaves the other cells (tab, in-flight flag, progress text, gallery
    snapshot, selection and edit-mode state) as they were. *)
Theorem clearAllViews_effect (s : AppState) :
  let r := run clearAllViews s in
  let s' := final_state r in
  completion r = Normal tt
  /\ trace r = []
  /\ (forall v, ViewImages.slot v (viewImages s') = None)
  /\ modelName s' = "" /\ conversionResult s' = None /\ error s' = None
  /\ (activeTab s' = activeTab s /\ isConverting s' = isConverting s
      /\ progress s' = progress s /\ savedModels s' = savedModels s
      /\ selectedModel s' = selectedModel s /\ editingModel s' = editingModel s
      /\ editName s' = editName s /\ editDescription s' = editDescription s).
Proof.
  cbv zeta. unfold run, clearAllViews. cbn.
  repeat split. intros []; reflexivity.
Qed.

(** C6, the claim as stated fails: with a name typed in, clearing also
    empties the name, a cell outside the slots, the result and the error. *)
Lemma clearAllViews_resets_name :
  ~ clearAll_resets_only_views_result_error Scenario.named.
Proof.
  unfold clearAll_resets_only_views_result_error. cbn.
  intros (_ & _ & _ & _ & _ & _ & _ & _ & _ & _ & Hname).
  discriminate Hname.
Qed.

(** ** Submitting a conversion *)

Section Convert.

Variable API_BASE : string.
Variable net : Request -> Outcome Response.

Let submitted := submitted_request API_BASE.

Lemma handleConvert_rejected (s : AppState) (front : File) (e : JsThrown) :
  ViewImages.front (viewImages s) = Some front ->
  net (submitted front s) = Rejected e ->
  run (handleConvert API_BASE net) s
  = (Normal tt, (convert_failed (error_text e) s, [EFetch (submitted front s)])).
Proof.
  intros Hf Hnet. unfold run, handleConvert, submitted, submitted_request in *. rewrite Hf.
  act_eval. act_step Hnet. reflexivity.
Qed.

Lemma handleConvert_unparsed (s : AppState) (front : File) (resp : Response)
      (e : JsThrown) :
  ViewImages.front (viewImages s) = Some front ->
  net (submitted front s) = Resolved resp ->
  resp_json resp = Rejected e ->
  run (handleConvert API_BASE net) s
  = (Normal tt, (convert_failed (error_text e) s, [EFetch (submitted front s)])).
Proof.
  intros Hf Hnet Hjson. unfold run, handleConvert, submitted, submitted_request in *. rewrite Hf.
  act_eval. act_step Hnet.
  destruct (ok resp); act_eval; act_step Hjson; reflexivity.
Qed.

Lemma handleConvert_not_ok (s : AppState) (front : File) (resp : Response)
      (body : JsValue) :
  ViewImages.front (viewImages s) = Some front ->
  net (submitted front s) = Resolved resp ->
  ok resp = false ->
  resp_json resp = Resolved body ->
  run (handleConvert API_BASE net) s
  = (Normal tt,
     (convert_failed
        (error_text
           match JsVal.get body "detail" with
           | Resolved detail =>
               match JsVal.new_Error
                       (JsVal.or detail (JsString "Conversion failed")) with
               | Resolved err => err
               | Rejected e => e
               end
           | Rejected e => e
           end) s,
      [EFetch (submitted front s)])).
Proof.
  intros Hf Hnet Hok Hjson. unfold run, handleConvert, submitted, submitted_request in *. rewrite Hf.
  act_eval. act_step Hnet. act_step Hok. act_step Hjson.
  destruct (JsVal.get body "detail") as [detail | e]; act_eval; [| reflexivity].
  destruct (JsVal.new_Error _); reflexivity.
Qed.

Lemma handleConvert_ok (s : AppState) (front : File) (resp : Response)
      (body : JsValue) (result : option ConversionResult.t) :
  ViewImages.front (viewImages s) = Some front ->
  net (submitted front s) = Resolved resp ->
  ok resp = true ->
  resp_json resp = Resolved body ->
  Cast.nullable ConversionResult.cast body = Some result ->
  run (handleConvert API_BASE net) s
  = (Normal tt,
     (convert_succeeded result s,
      [EFetch (submitted front s); EFetch (list_request API_BASE)])).
Proof.
  intros Hf Hnet Hok Hjson Hcast. unfold run, handleConvert, submitted, submitted_request in *.
  rewrite Hf.
  act_eval. act_step Hnet. act_step Hok. act_step Hjson. act_step Hcast.
  reflexivity.
Qed.

(** Whatever the service does, a submission with a front photograph sends
    the conversion request first and at most the gallery read after it. *)
Lemma handleConvert_requests (s : AppState) (front : File) :
  ViewImages.front (viewImages s) = Some front ->
  exists rest,
    requests (trace (run (handleConvert API_BASE net) s)) = submitted front s :: rest
    /\ (rest = [] \/ rest = [list_request API_BASE]).
Proof.
  intros Hf. unfold run, handleConvert, submitted, submitted_request. rewrite Hf. act_eval.
  destruct (net _) as [resp | e]; act_eval; [| now exists []; auto].
  destruct (ok resp); act_eval;
    (destruct (resp_json resp) as [body | e]; act_eval; [| now exists []; auto]).
  - destruct (Cast.nullable ConversionResult.cast body); act_eval.
    + exists [list_request API_BASE]. auto.
    + exists []. auto.
  - destruct (JsVal.get body "detail") as [detail | e]; act_eval;
      [destruct (JsVal.new_Error _); act_eval |]; exists []; auto.
Qed.

End Convert.

(** C1.  A submission with an empty front slot performs no effect (in
    particular it sends no request), reports the validation error as the
    error text (the code's wording of it is "Front view image is
    required"), and changes no other cell: the in-flight flag, the
    conversion result and the progress text are as before. *)
Theorem handleConvert_front_required
        (API_BASE : string) (net : Request -> Outcome Response) (s : AppState) :
  ViewImages.front (viewImages s) = None ->
  let r := run (handleConvert API_BASE net) s in
  completion r = Normal tt
  /\ trace r = []
  /\ final_state r = with_error (Some "Front view image is required") s
  /\ error (final_state r) = Some "Front view image is required"
  /\ isConverting (final_state r) = isConverting s
  /\ conversionResult (final_state r) = conversionResult s
  /\ progress (final_state r) = progress s.
Proof.
  intros Hfront r. subst r. unfold run, handleConvert. rewrite Hfront.
  act_eval. repeat split.
Qed.

Lemma handleConvert_front_required_witness :
  trace (run (handleConvert "" Scenario.net_success) Scenario.named) = []
  /\ error (final_state (run (handleConvert "" Scenario.net_success) Scenario.named))
     = Some "Front view image is required".
Proof.
  destruct (handleConvert_front_required "" Scenario.net_success Scenario.named eq_refl)
    as (_ & Htrace & _ & Herror & _).
  split; assumption.
Defined.

Lemma file_fields_app (a b : list (string * FormEntry)) :
  file_fields (a ++ b) = (file_fields a ++ file_fields b)%list.
Proof. unfold file_fields. now rewrite flat_map_app. Qed.

Lemma text_fields_app (a b : list (string * FormEntry)) :
  text_fields (a ++ b) = (text_fields a ++ text_fields b)%list.
Proof. unfold text_fields. now rewrite flat_map_app. Qed.

(** The file fields of the assembled form are the filled slots, the text
    fields the name if there is one. *)
Lemma convert_formData_fields (front : File) (vi : ViewImages.t) (name : string) :
  ViewImages.front vi = Some front ->
  file_fields (convert_formData front vi name) = filled_slots vi
  /\ text_fields (convert_formData front vi name)
     = (if Js.truthy_string name then [("name", name)] else []).
Proof.
  intros Hfront. destruct vi as [fr bk lf rt]. simpl in Hfront. subst fr.
  unfold convert_formData, append_name, filled_slots.
  destruct bk, lf, rt, name; split; reflexivity.
Qed.

Lemma filled_slots_In (vi : ViewImages.t) (v : ViewType.t) (file : File) :
  In (ViewType.key v, file) (filled_slots vi) <-> ViewImages.slot v vi = Some file.
Proof.
  destruct vi as [fr bk lf rt]. unfold filled_slots.
  split.
  - intros Hin. apply in_flat_map in Hin. destruct Hin as (v' & _ & Hv').
    destruct (ViewImages.slot v' _) as [f' |] eqn:Hslot; [| contradiction].
    destruct Hv' as [Heq | []].
    destruct v, v'; inversion Heq; subst; exact Hslot.
  - intros Hslot. apply in_flat_map. exists v. split.
    + destruct v; simpl; auto.
    + rewrite Hslot. now left.
Qed.

Lemma filled_slots_count (vi : ViewImages.t) :
  length (filled_slots vi) = viewCount vi.
Proof.
  destruct vi as [[] [] [] []]; reflexivity.
Qed.

(** C2.  A submission with a front photograph sends one conversion
    request, a POST to the conversion endpoint whose body is a form that
    holds, as file fields, exactly the filled slots under their
    viewpoints' keys ([front] always; [back], [left], [right] each if and
    only if that slot is filled), and as its only text field [name], present
    if and only if the name is not empty.  With only the front slot filled
    there is one file field; with all four, four. *)
Theorem convert_payload
        (API_BASE : string) (net : Request -> Outcome Response)
        (s : AppState) (front : File) :
  ViewImages.front (viewImages s) = Some front ->
  exists request rest fields,
    requests (trace (run (handleConvert API_BASE net) s)) = request :: rest
    /\ (rest = [] \/ rest = [list_request API_BASE])
    /\ req_method request = POST
    /\ req_url request = API_BASE ++ "/api/convert-multiview"
    /\ req_body request = FormData fields
    /\ file_fields fields = filled_slots (viewImages s)
    /\ (forall v file, In (ViewType.key v, file) (file_fields fields)
                       <-> ViewImages.slot v (viewImages s) = Some file)
    /\ In ("front", front) (file_fields fields)
    /\ (forall k t, In (k, t) (text_fields fields)
                    <-> k = "name" /\ t = modelName s /\ modelName s <> "")
    /\ length fields = (length (file_fields fields) + length (text_fields fields))%nat
    /\ length (file_fields fields) = viewCount (viewImages s)
    /\ (ViewImages.back (viewImages s) = None ->
        ViewImages.left (viewImages s) = None ->
        ViewImages.right (viewImages s) = None ->
        file_fields fields = [("front", front)])
    /\ (forall b l r,
           ViewImages.back (viewImages s) = Some b ->
           ViewImages.left (viewImages s) = Some l ->
           ViewImages.right (viewImages s) = Some r ->
           file_fields fields = [("front", front); ("back", b); ("left", l); ("right", r)]).
Proof.
  intros Hfront.
  set (payload := convert_formData front (viewImages s) (modelName s)).
  destruct (convert_formData_fields front (viewImages s) (modelName s) Hfront)
    as [Hfiles Htext].
  fold payload in Hfiles, Htext.
  destruct (handleConvert_requests API_BASE net s front Hfront) as (rest & Hreq & Hrest).
  exists (convert_request API_BASE payload), rest, payload.
  split; [exact Hreq |].
  split; [exact Hrest |].
  split; [reflexivity |].
  split; [reflexivity |].
  split; [reflexivity |].
  split; [exact Hfiles |].
  split; [intros v file; rewrite Hfiles; apply filled_slots_In |].
  split; [rewrite Hfiles; apply (filled_slots_In _ ViewType.front); exact Hfront |].
  split.
  { intros k t. rewrite Htext.
    destruct (modelName s) as [| c name]; cbn [Js.truthy_string].
    - split; [intros [] | intros (_ & _ & H); now elim H].
    - split.
      + intros [Heq | []]. inversion Heq; subst. repeat split. discriminate.
      + intros (-> & -> & _). now left. }
  split.
  { rewrite Hfiles, Htext. subst payload.
    destruct (viewImages s) as [fr bk lf rt]. simpl in Hfront. subst fr.
    destruct bk, lf, rt, (modelName s); reflexivity. }
  split; [rewrite Hfiles; apply filled_slots_count |].
  split.
  - intros Hb Hl Hr. rewrite Hfiles. unfold filled_slots. cbn.
    now rewrite Hfront, Hb, Hl, Hr.
  - intros b l r Hb Hl Hr. rewrite Hfiles. unfold filled_slots. cbn.
    now rewrite Hfront, Hb, Hl, Hr.
Qed.

(** The scenarios of the specification: with only the front photograph
    the request carries the one file field [front]; with all four, four
    file fields. *)
Lemma convert_payload_witness :
  (exists request rest fields,
      requests (trace (run (handleConvert "" Scenario.net_success) Scenario.front_only))
      = request :: rest
      /\ req_method request = POST
      /\ req_url request = "/api/convert-multiview"
      /\ req_body request = FormData fields
      /\ file_fields fields = [("front", Scenario.photo "front.png")]
      /\ text_fields fields = [])
  /\ (exists request rest fields,
         requests (trace (run (handleConvert "" Scenario.net_success) Scenario.four_views))
         = request :: rest
         /\ req_body request = FormData fields
         /\ file_fields fields
            = [("front", Scenario.photo "front.png"); ("back", Scenario.photo "back.png");
               ("left", Scenario.photo "left.png"); ("right", Scenario.photo "right.png")]).
Proof.
  split.
  - destruct (convert_payload "" Scenario.net_success Scenario.front_only
                (Scenario.photo "front.png") eq_refl)
      as (request & rest & fields & Hreq & _ & Hmethod & Hurl & Hbody & _ & _ & _
          & Htext & _ & _ & Hone & _).
    exists request, rest, fields.
    repeat split; try assumption.
    + apply Hone; reflexivity.
    + destruct (text_fields fields) as [| [k t] others]; [reflexivity |].
      destruct (proj1 (Htext k t) (or_introl eq_refl)) as (_ & _ & Hname).
      now elim Hname.
  - destruct (convert_payload "" Scenario.net_success Scenario.four_views
                (Scenario.photo "front.png") eq_refl)
      as (request & rest & fields & Hreq & _ & _ & _ & Hbody & _ & _ & _
          & _ & _ & _ & _ & Hfour).
    exists request, rest, fields.
    repeat split; try assumption.
    apply Hfour; reflexivity.
Defined.

(** ** Failed conversions *)

Lemma new_Error_string (msg : string) :
  msg <> "" ->
  JsVal.new_Error (JsVal.or (JsString msg) (JsString "Conversion failed"))
  = Resolved (JsError "Error" msg).
Proof.
  intros Hne. apply truthy_string_nonempty in Hne.
  unfold JsVal.or. cbn. now rewrite Hne.
Qed.

Lemma new_Error_falsy (detail : JsValue) :
  JsVal.truthy detail = false ->
  JsVal.new_Error (JsVal.or detail (JsString "Conversion failed"))
  = Resolved (JsError "Error" "Conversion failed").
Proof.
  intros Hfalsy. unfold JsVal.or. now rewrite Hfalsy.
Qed.

(** C3 (as amended).  When the conversion endpoint answers with a status
    outside 200-299, the attempt ends as failed (progress text cleared,
    nothing in flight, result untouched, no further request) and the error
    text is: the body's [detail] when the body is JSON and [detail] is a
    non-empty string; "Conversion failed" when [detail] is absent, [null],
    empty or otherwise falsy; and the parser's own message when the body is
    not JSON. *)
Theorem convert_failure_message
        (API_BASE : string) (net : Request -> Outcome Response)
        (s : AppState) (front : File) (resp : Response) :
  ViewImages.front (viewImages s) = Some front ->
  net (submitted_request API_BASE front s) = Resolved resp ->
  ok resp = false ->
  let r := run (handleConvert API_BASE net) s in
  let s' := final_state r in
  (forall body msg,
      resp_json resp = Resolved body ->
      JsVal.get body "detail" = Resolved (JsString msg) -> msg <> "" ->
      error s' = Some msg)
  /\ (forall body detail,
         resp_json resp = Resolved body ->
         JsVal.get body "detail" = Resolved detail ->
         detail = JsUndefined \/ detail = JsNull \/ detail = JsString ""
         \/ JsVal.truthy detail = false ->
         error s' = Some "Conversion failed")
  /\ (forall e, resp_json resp = Rejected e -> error s' = Some (error_text e))
  /\ completion r = Normal tt
  /\ progress s' = "" /\ isConverting s' = false
  /\ conversionResult s' = conversionResult s
  /\ requests (trace r) = [submitted_request API_BASE front s].
Proof.
  intros Hfront Hnet Hok r s'.
  split; [| split; [| split]].
  - intros body msg Hjson Hdetail Hne. subst s' r.
    rewrite (handleConvert_not_ok API_BASE net s front resp body Hfront Hnet Hok Hjson).
    now rewrite Hdetail, (new_Error_string msg Hne).
  - intros body detail Hjson Hdetail Hfalsy. subst s' r.
    rewrite (handleConvert_not_ok API_BASE net s front resp body Hfront Hnet Hok Hjson).
    rewrite Hdetail, new_Error_falsy; [reflexivity |].
    destruct Hfalsy as [-> | [-> | [-> | Hfalsy]]]; try reflexivity. exact Hfalsy.
  - intros e Hjson. subst s' r.
    now rewrite (handleConvert_unparsed API_BASE net s front resp e Hfront Hnet Hjson).
  - subst s' r. destruct (resp_json resp) as [body | e] eqn:Hjson.
    + rewrite (handleConvert_not_ok API_BASE net s front resp body Hfront Hnet Hok Hjson).
      repeat split.
    + rewrite (handleConvert_unparsed API_BASE net s front resp e Hfront Hnet Hjson).
      repeat split.
Qed.

(** The scenario of the specification: HTTP 500 with
    [{"detail":"quota exceeded"}] shows exactly "quota exceeded". *)
Lemma convert_failure_message_witness :
  error (final_state (run (handleConvert "" Scenario.net_quota) Scenario.front_only))
  = Some "quota exceeded".
Proof.
  destruct (convert_failure_message "" Scenario.net_quota Scenario.front_only
              (Scenario.photo "front.png") Scenario.quota_response
              eq_refl eq_refl eq_refl) as (Hdetail & _).
  apply (Hdetail (JsObject [("detail", JsString "quota exceeded")]) "quota exceeded");
    [reflexivity | reflexivity | discriminate].
Defined.

(** C3, the claim as stated fails: a gateway answering HTTP 502 with a body
    that is not JSON has no [detail], yet the text shown is not the fallback
    but the message of the parse error. *)
Lemma bad_gateway_surfaces_parse_error :
  ~ surfaces_detail_or_fallback "" Scenario.net_bad_gateway Scenario.front_only.
Proof.
  intros Hclaim.
  specialize (Hclaim (Scenario.photo "front.png") Scenario.bad_gateway_response
                     eq_refl eq_refl eq_refl).
  vm_compute in Hclaim. discriminate Hclaim.
Qed.

(** ** The gallery read *)

Section Gallery.

Variable API_BASE : string.

(** Whatever the settlement of its request, [fetchModels] writes no cell
    but the gallery snapshot, sends nothing further and never throws. *)
Lemma fetchModels_resume_frame (o : Outcome Response) (w : World) :
  let r := fetchModels_resume o w in
  (exists models, final_state r = with_savedModels models (fst w))
  /\ requests (trace r) = requests (snd w)
  /\ (forall e, completion r <> Thrown e).
Proof.
  destruct w as [s tr]. cbv zeta.
  assert (Hsame : s = with_savedModels (savedModels s) s) by now destruct s.
  assert (Hlog : forall label e,
             requests (tr ++ [EConsoleError label e]) = requests tr).
  { intros label e. unfold requests. rewrite flat_map_app. cbn.
    now rewrite app_nil_r. }
  unfold fetchModels_resume, final_state, trace, completion. act_eval.
  destruct o as [resp | e]; act_eval.
  2: { rewrite Hlog. repeat split; [now exists (savedModels s) | discriminate]. }
  destruct (resp_json resp) as [body | e]; act_eval.
  2: { rewrite Hlog. repeat split; [now exists (savedModels s) | discriminate]. }
  destruct (JsVal.get body "models") as [models | e]; act_eval.
  2: { rewrite Hlog. repeat split; [now exists (savedModels s) | discriminate]. }
  repeat split; [now eexists | discriminate].
Qed.

(** A read whose request or whose body parsing fails is only logged. *)
Lemma fetchModels_resume_failed (o : Outcome Response) (w : World) :
  (exists e, o = Rejected e)
  \/ (exists resp e, o = Resolved resp /\ resp_json resp = Rejected e) ->
  final_state (fetchModels_resume o w) = fst w
  /\ exists e, trace (fetchModels_resume o w)
               = (snd w ++ [EConsoleError "Failed to fetch models:" e])%list.
Proof.
  destruct w as [s tr].
  intros [(e & ->) | (resp & e & -> & Hjson)];
    unfold fetchModels_resume, final_state, trace; act_eval.
  - split; [reflexivity | now exists e].
  - act_step Hjson. split; [reflexivity | now exists e].
Qed.

Lemma is_list_request_list : is_list_request API_BASE (list_request API_BASE) = true.
Proof. unfold is_list_request, list_request. cbn. apply String.eqb_refl. Qed.

End Gallery.

Lemma cast_not_null (body : JsValue) (result : ConversionResult.t) :
  ConversionResult.cast body = Some result ->
  Cast.nullable ConversionResult.cast body = Some (Some result).
Proof.
  intros Hcast. destruct body; try discriminate Hcast.
  unfold Cast.nullable. now rewrite Hcast.
Qed.

(** ** Successful conversions *)

(** C7.  When the conversion endpoint answers with a status in 200-299 and
    a body that is a ConversionResult, the handler stores the result,
    clears the progress text, surfaces no error, and triggers exactly one
    gallery read, after the conversion request.  However that read settles
    (a failure included), the result stays set and no error is surfaced; a
    failed read changes no cell at all. *)
Theorem conversion_success
        (API_BASE : string) (net : Request -> Outcome Response)
        (s : AppState) (front : File) (resp : Response)
        (body : JsValue) (result : ConversionResult.t) :
  ViewImages.front (viewImages s) = Some front ->
  net (submitted_request API_BASE front s) = Resolved resp ->
  ok resp = true ->
  resp_json resp = Resolved body ->
  ConversionResult.cast body = Some result ->
  let r := run (handleConvert API_BASE net) s in
  completion r = Normal tt
  /\ conversionResult (final_state r) = Some result
  /\ error (final_state r) = None
  /\ progress (final_state r) = ""
  /\ isConverting (final_state r) = false
  /\ requests (trace r) = [submitted_request API_BASE front s; list_request API_BASE]
  /\ refresh_count API_BASE (trace r) = 1%nat
  /\ (forall o : Outcome Response,
         let r' := fetchModels_resume o (final_state r, trace r) in
         conversionResult (final_state r') = Some result
         /\ error (final_state r') = None
         /\ progress (final_state r') = ""
         /\ refresh_count API_BASE (trace r') = 1%nat)
  /\ (forall o : Outcome Response,
         (exists e, o = Rejected e)
         \/ (exists resp' e, o = Resolved resp' /\ resp_json resp' = Rejected e) ->
         final_state (fetchModels_resume o (final_state r, trace r)) = final_state r).
Proof.
  intros Hfront Hnet Hok Hjson Hcast r.
  pose proof (handleConvert_ok API_BASE net s front resp body (Some result)
                Hfront Hnet Hok Hjson (cast_not_null body result Hcast)) as Hrun.
  fold r in Hrun.
  assert (Hcount : refresh_count API_BASE (trace r) = 1%nat).
  { rewrite Hrun. unfold refresh_count, trace, requests. cbn.
    now rewrite String.eqb_refl. }
  repeat match goal with |- _ /\ _ => split end;
    try (rewrite Hrun; reflexivity); try exact Hcount.
  - intros o r'.
    destruct (fetchModels_resume_frame o (final_state r, trace r))
      as ((models & Hstate) & Hreq & _).
    fold r' in Hstate, Hreq. cbn [fst snd] in Hstate, Hreq.
    repeat split.
    + rewrite Hstate, Hrun. reflexivity.
    + rewrite Hstate, Hrun. reflexivity.
    + rewrite Hstate, Hrun. reflexivity.
    + unfold refresh_count in *. now rewrite Hreq.
  - intros o Hfail.
    exact (proj1 (fetchModels_resume_failed o (final_state r, trace r) Hfail)).
Qed.

Lemma conversion_success_witness :
  let r := run (handleConvert "" Scenario.net_success) Scenario.front_only in
  option_map ConversionResult.model_url (conversionResult (final_state r))
  = Some "https://cdn.example.com/8.glb"
  /\ refresh_count "" (trace r) = 1%nat
  /\ error (final_state
              (fetchModels_resume (Scenario.net_success (list_request ""))
                 (final_state r, trace r))) = None.
Proof.
  cbv zeta.
  destruct (conversion_success "" Scenario.net_success Scenario.front_only
              (Scenario.photo "front.png") Scenario.success_response
              Scenario.result_json
              {| ConversionResult.status := "success";
                 ConversionResult.task_id := "t-8";
                 ConversionResult.model_id := Some 8%Z;
                 ConversionResult.model_url := "https://cdn.example.com/8.glb";
                 ConversionResult.thumbnail_url := None |}
              eq_refl eq_refl eq_refl eq_refl eq_refl)
    as (_ & Hresult & _ & _ & _ & _ & Hcount & Hafter & _).
  split; [now rewrite Hresult |].
  split; [exact Hcount |].
  exact (proj1 (proj2 (Hafter (Scenario.net_success (list_request ""))))).
Defined.

Lemma lookup_absent (k : string) (fields : list (string * JsValue)) :
  JsVal.has_own k fields = false -> JsVal.lookup k fields = JsUndefined.
Proof.
  unfold JsVal.has_own.
  induction fields as [| [k' v] fields IH]; cbn; [reflexivity |].
  destruct (String.eqb k k'); cbn; [discriminate | exact IH].
Qed.

(** C10 (as amended).  [fetchModels] sends one request and never looks at
    the status of the answer.  When the body parses as JSON to a value
    other than [null], the snapshot is replaced: by the body's [models],
    whatever it is, when that is truthy (read as a list of SavedModel it
    is the list received, in the order received), by the empty list when
    [models] is absent or falsy.  The snapshot, and every other cell, is
    kept, and the failure logged, when the request fails, when the body is
    not JSON, and when the body is [null]. *)
Theorem fetchModels_snapshot
        (API_BASE : string) (net : Request -> Outcome Response) (s : AppState) :
  let r := run (fetchModels API_BASE net) s in
  let logged e := [EFetch (list_request API_BASE);
                   EConsoleError "Failed to fetch models:" e] in
  (forall resp body,
      net (list_request API_BASE) = Resolved resp ->
      resp_json resp = Resolved body ->
      body <> JsNull -> body <> JsUndefined ->
      exists models,
        JsVal.get body "models" = Resolved models
        /\ completion r = Normal tt
        /\ trace r = [EFetch (list_request API_BASE)]
        /\ final_state r
           = with_savedModels (if JsVal.truthy models then models else JsArray []) s
        /\ (JsVal.truthy models = true -> savedModels (final_state r) = models)
        /\ (JsVal.truthy models = false -> savedModels (final_state r) = JsArray [])
        /\ (forall snapshot,
               Cast.array SavedModel.cast models = Some snapshot ->
               gallery_models (final_state r) = Some snapshot))
  /\ (forall resp fields,
         net (list_request API_BASE) = Resolved resp ->
         resp_json resp = Resolved (JsObject fields) ->
         JsVal.has_own "models" fields = false ->
         savedModels (final_state r) = JsArray [])
  /\ (forall e,
         net (list_request API_BASE) = Rejected e ->
         completion r = Normal tt /\ final_state r = s /\ trace r = logged e)
  /\ (forall resp e,
         net (list_request API_BASE) = Resolved resp ->
         resp_json resp = Rejected e ->
         completion r = Normal tt /\ final_state r = s /\ trace r = logged e)
  /\ (forall resp body,
         net (list_request API_BASE) = Resolved resp ->
         resp_json resp = Resolved body ->
         body = JsNull ->
         completion r = Normal tt /\ final_state r = s
         /\ trace r = logged (JsVal.cannot_read JsNull "models")).
Proof.
  cbv zeta.
  unfold run, fetchModels, fetchModels_resume, final_state, trace, completion,
    gallery_models.
  repeat match goal with |- _ /\ _ => split end.
  - intros resp body Hnet Hjson Hnull Hundef.
    assert (Hget : exists models, JsVal.get body "models" = Resolved models).
    { destruct body; try (eexists; reflexivity); [now elim Hundef | now elim Hnull]. }
    destruct Hget as [models Hget]. exists models.
    act_eval. act_step Hnet. act_step Hjson. act_step Hget.
    unfold JsVal.or. cbn [savedModels with_savedModels].
    repeat split.
    + now intros ->.
    + now intros ->.
    + intros snapshot Hcast.
      destruct models; try discriminate Hcast. exact Hcast.
  - intros resp fields Hnet Hjson Hown.
    act_eval. act_step Hnet. act_step Hjson. cbn [JsVal.get]. act_eval.
    rewrite (lookup_absent "models" fields Hown). reflexivity.
  - intros e Hnet. act_eval. act_step Hnet. repeat split.
  - intros resp e Hnet Hjson. act_eval. act_step Hnet. act_step Hjson.
    repeat split.
  - intros resp body Hnet Hjson ->. act_eval. act_step Hnet. act_step Hjson.
    cbn. repeat split.
Qed.

(** An answer of HTTP 500 that carries [models] replaces the snapshot all
    the same, and so does a [models] that is not a list of saved models. *)
Lemma fetchModels_snapshot_witness :
  savedModels (final_state (run (fetchModels "" Scenario.net_models_500) initialState))
  = JsArray [Scenario.chair_json]
  /\ gallery_models
       (final_state (run (fetchModels "" Scenario.net_models_500) initialState))
     = Some [Scenario.chair]
  /\ savedModels
       (final_state
          (run (fetchModels ""
                  (Scenario.answering GET
                     {| resp_status := 200;
                        resp_json := Resolved (JsObject [("models", JsString "none")]) |}))
               Scenario.chair_selected))
     = JsString "none".
Proof.
  destruct (fetchModels_snapshot "" Scenario.net_models_500 initialState)
    as (Hreplaced & _).
  destruct (Hreplaced Scenario.models_500_response
              (JsObject [("models", JsArray [Scenario.chair_json])])
              eq_refl eq_refl) as (models & Hget & _ & _ & _ & Htruthy & _ & Htyped);
    [discriminate | discriminate |].
  injection Hget as <-.
  split; [apply Htruthy; reflexivity |].
  split; [apply Htyped; reflexivity |].
  destruct (fetchModels_snapshot ""
              (Scenario.answering GET
                 {| resp_status := 200;
                    resp_json := Resolved (JsObject [("models", JsString "none")]) |})
              Scenario.chair_selected) as (Hother & _).
  destruct (Hother {| resp_status := 200;
                      resp_json := Resolved (JsObject [("models", JsString "none")]) |}
              (JsObject [("models", JsString "none")]) eq_refl eq_refl)
    as (models' & Hget' & _ & _ & _ & Htruthy' & _); [discriminate | discriminate |].
  injection Hget' as <-. apply Htruthy'. reflexivity.
Defined.

(** C10, the claim as stated fails: the body [null] is JSON and has no
    [models], yet the snapshot is not replaced by the empty list; reading
    [models] of [null] throws and the previous snapshot stays. *)
Lemma null_body_keeps_snapshot :
  ~ list_replaces_snapshot "" Scenario.net_null_list Scenario.chair_selected.
Proof.
  intros Hclaim.
  specialize (Hclaim Scenario.null_response JsNull eq_refl eq_refl).
  vm_compute in Hclaim. discriminate Hclaim.
Qed.

(** ** Deleting and updating a saved model *)

Lemma refresh_count_after (API_BASE : string) (m : Method) (modelId : Z)
      (headers : list (string * string)) (body : Body) :
  m <> GET ->
  length (filter (is_list_request API_BASE)
                 [model_request API_BASE m modelId headers body;
                  list_request API_BASE]) = 1%nat.
Proof.
  intros Hm. cbn [filter]. rewrite is_list_request_list.
  unfold is_list_request, model_request. cbn.
  destruct m; [now elim Hm | reflexivity ..].
Qed.

(** C8 (as amended).  A confirmed delete whose request completes, whatever
    the status of the answer, clears the selection if the identifier is the
    selected model's, leaves it unchanged otherwise, and triggers exactly
    one gallery read after the request.  When the request does not complete
    the failure is logged, no cell changes and no gallery read is triggered.
    A delete that is not confirmed sends nothing. *)
Theorem handleDeleteModel_outcomes
        (API_BASE : string) (net : Request -> Outcome Response)
        (confirm_answer : string -> bool) (s : AppState) (modelId : Z) :
  let prompt := "Are you sure you want to delete this model?" in
  let request := model_request API_BASE DELETE modelId [] NoBody in
  let r := run (handleDeleteModel API_BASE net confirm_answer modelId) s in
  (confirm_answer prompt = true ->
   forall resp, net request = Resolved resp ->
     (selected_is s modelId = true -> selectedModel (final_state r) = None)
     /\ (selected_is s modelId = false -> final_state r = s)
     /\ final_state r = (if selected_is s modelId then with_selectedModel None s else s)
     /\ requests (trace r) = [request; list_request API_BASE]
     /\ refresh_count API_BASE (trace r) = 1%nat)
  /\ (confirm_answer prompt = true ->
      forall e, net request = Rejected e ->
        final_state r = s
        /\ trace r = [EConfirm prompt; EFetch request;
                      EConsoleError "Failed to delete model:" e]
        /\ refresh_count API_BASE (trace r) = 0%nat)
  /\ (confirm_answer prompt = false ->
      final_state r = s /\ trace r = [EConfirm prompt]).
Proof.
  cbv zeta.
  unfold run, handleDeleteModel, final_state, trace, refresh_count.
  repeat match goal with |- _ /\ _ => split end.
  - intros Hyes resp Hnet. act_eval. act_step Hyes. act_step Hnet.
    destruct (selected_is s modelId); act_eval;
      (repeat split; try discriminate; try reflexivity;
       cbn [requests flat_map app]; now apply refresh_count_after).
  - intros Hyes e Hnet. act_eval. act_step Hyes. act_step Hnet. repeat split.
  - intros Hno. act_eval. act_step Hno. repeat split.
Qed.

(** The delete is answered HTTP 500: the selection is cleared and the
    gallery read triggered all the same. *)
Lemma handleDeleteModel_outcomes_witness :
  let r := run (handleDeleteModel "" Scenario.net_delete_fails (fun _ => true) 7)
               Scenario.chair_selected in
  selectedModel (final_state r) = None /\ refresh_count "" (trace r) = 1%nat.
Proof.
  cbv zeta.
  destruct (handleDeleteModel_outcomes "" Scenario.net_delete_fails (fun _ => true)
              Scenario.chair_selected 7) as (Hdone & _).
  destruct (Hdone eq_refl Scenario.server_error_response eq_refl)
    as (Hcleared & _ & _ & _ & Hcount).
  split; [apply Hcleared; reflexivity | exact Hcount].
Defined.

(** C8, the claim as stated fails: when the delete request does not
    complete, the selected model stays selected although it is the one
    being deleted, and no gallery read is triggered. *)
Lemma delete_offline_keeps_selection :
  ~ delete_clears_and_refreshes "" Scenario.net_down Scenario.chair_selected 7.
Proof.
  intros (Hcleared & _ & _).
  specialize (Hcleared eq_refl). vm_compute in Hcleared. discriminate Hcleared.
Qed.

(** C9 (as amended).  An update whose request completes, whatever the
    status of the answer, leaves edit mode and triggers exactly one gallery
    read after the request; nothing else changes.  When the request does
    not complete the failure is logged, edit mode is not left and no gallery
    read is triggered. *)
Theorem handleUpdateModel_outcomes
        (API_BASE : string) (net : Request -> Outcome Response)
        (s : AppState) (modelId : Z) :
  let request :=
    model_request API_BASE PUT modelId [("Content-Type", "application/json")]
      (JsonText (JsObject [("name", JsString (editName s));
                           ("description", JsString (editDescription s))])) in
  let r := run (handleUpdateModel API_BASE net modelId) s in
  (forall resp, net request = Resolved resp ->
     editingModel (final_state r) = None
     /\ final_state r = with_editingModel None s
     /\ requests (trace r) = [request; list_request API_BASE]
     /\ refresh_count API_BASE (trace r) = 1%nat)
  /\ (forall e, net request = Rejected e ->
        final_state r = s
        /\ editingModel (final_state r) = editingModel s
        /\ trace r = [EFetch request; EConsoleError "Failed to update model:" e]
        /\ refresh_count API_BASE (trace r) = 0%nat).
Proof.
  cbv zeta.
  unfold run, handleUpdateModel, final_state, trace, refresh_count.
  split.
  - intros resp Hnet. act_eval. act_step Hnet.
    repeat split. cbn [requests flat_map app]. now apply refresh_count_after.
  - intros e Hnet. act_eval. act_step Hnet. repeat split.
Qed.

(** The scenario of the specification: the update is answered HTTP 500 and
    edit mode is left. *)
Lemma handleUpdateModel_outcomes_witness :
  editingModel (final_state (run (handleUpdateModel "" Scenario.net_update_fails 7)
                                 Scenario.chair_edited)) = None.
Proof.
  destruct (handleUpdateModel_outcomes "" Scenario.net_update_fails
              Scenario.chair_edited 7) as (Hdone & _).
  exact (proj1 (Hdone Scenario.server_error_response eq_refl)).
Defined.

(** C9, the claim as stated fails: when the update request does not
    complete, the model is still being edited and no gallery read is
    triggered. *)
Lemma update_offline_stays_in_edit_mode :
  ~ update_exits_and_refreshes "" Scenario.net_down Scenario.chair_edited 7.
Proof.
  intros (Hexit & _). vm_compute in Hexit. discriminate Hexit.
Qed.


(** * Further properties of the state glue *)

(** ** The view slots *)

Ltac act_run :=
  unfold run, final_state, trace, completion, handleViewFileChange, onDrop,
    removeFile, selectModel, startEdit, cancelEdit, typeEditName,
    typeEditDescription, clearAllViews;
  act_eval.

Lemma slot_set_slot_same (view : ViewType.t) (file : option File) (vi : ViewImages.t) :
  ViewImages.slot view (set_slot view file vi) = file.
Proof. destruct view; reflexivity. Qed.

Lemma slot_set_slot_other (view other : ViewType.t) (file : option File)
      (vi : ViewImages.t) :
  other <> view ->
  ViewImages.slot other (set_slot view file vi) = ViewImages.slot other vi.
Proof. intros Hne. destruct view, other; try reflexivity; now elim Hne. Qed.

(** X1.  [handleViewFileChange view file] puts [file] in the slot of
    [view], keeps the three other slots and every other cell, and performs
    no effect. *)
Theorem handleViewFileChange_slot
        (view : ViewType.t) (file : option File) (s : AppState) :
  let r := run (handleViewFileChange view file) s in
  completion r = Normal tt
  /\ trace r = []
  /\ ViewImages.slot view (viewImages (final_state r)) = file
  /\ (forall other, other <> view ->
        ViewImages.slot other (viewImages (final_state r))
        = ViewImages.slot other (viewImages s))
  /\ final_state r = with_viewImages (viewImages (final_state r)) s.
Proof.
  cbv zeta. act_run. cbn [viewImages with_viewImages].
  repeat split.
  - apply slot_set_slot_same.
  - intros other Hne. now apply slot_set_slot_other.
Qed.

Lemma handleViewFileChange_slot_witness :
  ViewImages.slot ViewType.front
    (viewImages (final_state
       (run (handleViewFileChange ViewType.back (Some (Scenario.photo "back.png")))
            Scenario.front_only)))
  = Some (Scenario.photo "front.png").
Proof.
  destruct (handleViewFileChange_slot ViewType.back (Some (Scenario.photo "back.png"))
              Scenario.front_only) as (_ & _ & _ & Hother & _).
  rewrite (Hother ViewType.front); [reflexivity | discriminate].
Defined.

(** X2.  Slot changes compose as writes to independent cells: a second
    change of the same slot overrides the first, and changes of two
    different slots give the same state in either order. *)
Theorem handleViewFileChange_compose
        (view other : ViewType.t) (file file' : option File) (s : AppState) :
  final_state (run (handleViewFileChange view file')
                   (final_state (run (handleViewFileChange view file) s)))
  = final_state (run (handleViewFileChange view file') s)
  /\ (other <> view ->
      final_state (run (handleViewFileChange other file')
                       (final_state (run (handleViewFileChange view file) s)))
      = final_state (run (handleViewFileChange view file)
                         (final_state (run (handleViewFileChange other file') s)))).
Proof.
  split.
  - act_run. destruct s as [tab vi]. destruct view; reflexivity.
  - intros Hne. act_run. destruct s as [tab vi].
    destruct view, other; try reflexivity; now elim Hne.
Qed.

Lemma handleViewFileChange_compose_witness :
  final_state (run (handleViewFileChange ViewType.left (Some (Scenario.photo "left.png")))
                   (final_state (run (handleViewFileChange ViewType.back
                                        (Some (Scenario.photo "back.png")))
                                     Scenario.front_only)))
  = final_state (run (handleViewFileChange ViewType.back (Some (Scenario.photo "back.png")))
                     (final_state (run (handleViewFileChange ViewType.left
                                          (Some (Scenario.photo "left.png")))
                                       Scenario.front_only))).
Proof.
  apply (proj2 (handleViewFileChange_compose ViewType.back ViewType.left
                  (Some (Scenario.photo "back.png")) (Some (Scenario.photo "left.png"))
                  Scenario.front_only)).
  discriminate.
Defined.

(** X3.  Dropping no accepted file changes nothing; dropping several keeps
    the first one only; and removing the file of a slot that was empty
    before the drop gives back the state before the drop. *)
Theorem onDrop_first_file
        (view : ViewType.t) (s : AppState) :
  run (onDrop view []) s = (Normal tt, (s, []))
  /\ (forall first rest,
         run (onDrop view (first :: rest)) s
         = run (handleViewFileChange view (Some first)) s
         /\ ViewImages.slot view
              (viewImages (final_state (run (onDrop view (first :: rest)) s)))
            = Some first)
  /\ (forall first rest,
         ViewImages.slot view (viewImages s) = None ->
         final_state (run (removeFile view)
                          (final_state (run (onDrop view (first :: rest)) s)))
         = s).
Proof.
  repeat split.
  - act_run. cbn [viewImages with_viewImages]. apply slot_set_slot_same.
  - intros first rest Hempty. act_run.
    destruct s as [tab vi]. destruct vi as [fr bk lf rt].
    destruct view; cbn in Hempty |- *; now subst.
Qed.

Lemma onDrop_first_file_witness :
  final_state (run (removeFile ViewType.back)
                   (final_state (run (onDrop ViewType.back
                                        [Scenario.photo "a.png"; Scenario.photo "b.png"])
                                     Scenario.front_only)))
  = Scenario.front_only.
Proof.
  apply (proj2 (proj2 (onDrop_first_file ViewType.back Scenario.front_only))
           (Scenario.photo "a.png") [Scenario.photo "b.png"]).
  reflexivity.
Defined.

(** X4.  Clearing is idempotent, and whatever the state before, a
    submission made after clearing is refused by the validation: the
    Convert button is disabled, no request is sent and the error text is
    set. *)
Theorem clearAllViews_then_convert
        (API_BASE : string) (net : Request -> Outcome Response) (s : AppState) :
  let cleared := final_state (run clearAllViews s) in
  final_state (run clearAllViews cleared) = cleared
  /\ convert_disabled cleared = true
  /\ trace (run (handleConvert API_BASE net) cleared) = []
  /\ error (final_state (run (handleConvert API_BASE net) cleared))
     = Some "Front view image is required".
Proof.
  cbv zeta. repeat split.
Qed.

(** ** The course of a submission *)

Lemma refresh_count_submitted (API_BASE : string) (front : File) (s : AppState) :
  refresh_count API_BASE [EFetch (submitted_request API_BASE front s)] = 0%nat.
Proof. reflexivity. Qed.

(** X5.  The guard of [handleConvert] and the disabling of the Convert
    button agree: whenever the button is enabled nothing is in flight and a
    click sends the conversion request; whenever the validation refuses a
    submission the button was disabled. *)
Theorem convert_enabled_sends
        (API_BASE : string) (net : Request -> Outcome Response) (s : AppState) :
  (convert_disabled s = false ->
   isConverting s = false
   /\ exists front rest,
       ViewImages.front (viewImages s) = Some front
       /\ requests (trace (run (handleConvert API_BASE net) s))
          = submitted_request API_BASE front s :: rest)
  /\ (ViewImages.front (viewImages s) = None -> convert_disabled s = true).
Proof.
  unfold convert_disabled. split.
  - intros Henabled. apply orb_false_elim in Henabled. destruct Henabled as [Hfront Hflight].
    split; [exact Hflight |].
    destruct (ViewImages.front (viewImages s)) as [front |] eqn:Hf; [| discriminate].
    destruct (handleConvert_requests API_BASE net s front Hf) as (rest & Hreq & _).
    now exists front, rest.
  - now intros ->.
Qed.

Lemma convert_enabled_sends_witness :
  exists front rest,
    ViewImages.front (viewImages Scenario.front_only) = Some front
    /\ requests (trace (run (handleConvert "" Scenario.net_down) Scenario.front_only))
       = submitted_request "" front Scenario.front_only :: rest.
Proof.
  exact (proj2 (proj1 (convert_enabled_sends "" Scenario.net_down Scenario.front_only)
                  eq_refl)).
Defined.

(** X6.  A submission with a front photograph never throws, and unless the
    endpoint answers 2xx with a body that is neither [null] nor a
    ConversionResult, it ends with nothing in flight and the progress text
    cleared, in exactly one of two ways: no error text and one gallery read
    triggered (the answer was 2xx), or an error text, no gallery read and
    the previous conversion result kept. *)
Theorem handleConvert_ends
        (API_BASE : string) (net : Request -> Outcome Response)
        (s : AppState) (front : File) :
  ViewImages.front (viewImages s) = Some front ->
  let r := run (handleConvert API_BASE net) s in
  let s' := final_state r in
  (forall e, completion r <> Thrown e)
  /\ ((exists resp body,
          net (submitted_request API_BASE front s) = Resolved resp
          /\ ok resp = true
          /\ resp_json resp = Resolved body
          /\ Cast.nullable ConversionResult.cast body = None
          /\ completion r = IllTyped)
      \/ (completion r = Normal tt
          /\ isConverting s' = false
          /\ progress s' = ""
          /\ ((error s' = None
               /\ refresh_count API_BASE (trace r) = 1%nat
               /\ exists resp, net (submitted_request API_BASE front s) = Resolved resp
                               /\ ok resp = true)
              \/ (exists msg, error s' = Some msg
                              /\ refresh_count API_BASE (trace r) = 0%nat
                              /\ conversionResult s' = conversionResult s)))).
Proof.
  intros Hfront r s'. subst s' r.
  destruct (net (submitted_request API_BASE front s)) as [resp | e] eqn:Hnet.
  - destruct (resp_json resp) as [body | e] eqn:Hjson.
    + destruct (ok resp) eqn:Hok.
      * destruct (Cast.nullable ConversionResult.cast body) as [result |] eqn:Hcast.
        -- rewrite (handleConvert_ok API_BASE net s front resp body result
                      Hfront Hnet Hok Hjson Hcast).
           split; [discriminate |]. right. repeat split. left. repeat split.
           ++ unfold refresh_count, trace, requests. cbn.
              now rewrite String.eqb_refl.
           ++ now exists resp.
        -- assert (Hill : completion (run (handleConvert API_BASE net) s) = IllTyped).
           { unfold run, handleConvert, submitted_request, completion in *.
             rewrite Hfront. act_eval. act_step Hnet. act_step Hok.
             act_step Hjson. act_step Hcast. reflexivity. }
           split; [rewrite Hill; discriminate |].
           left. exists resp, body. now repeat split.
      * rewrite (handleConvert_not_ok API_BASE net s front resp body
                   Hfront Hnet Hok Hjson).
        split; [discriminate |]. right. repeat split. right.
        eexists. repeat split.
    + rewrite (handleConvert_unparsed API_BASE net s front resp e Hfront Hnet Hjson).
      split; [discriminate |]. right. repeat split. right.
      eexists. repeat split.
  - rewrite (handleConvert_rejected API_BASE net s front e Hfront Hnet).
    split; [discriminate |]. right. repeat split. right.
    eexists. repeat split.
Qed.

Lemma handleConvert_ends_witness :
  isConverting (final_state (run (handleConvert "" Scenario.net_bad_gateway)
                                 Scenario.front_only)) = false.
Proof.
  destruct (handleConvert_ends "" Scenario.net_bad_gateway Scenario.front_only
              (Scenario.photo "front.png") eq_refl)
    as (_ & [(resp & body & Hnet & _ & Hjson & _) | (_ & Hflight & _)]).
  - vm_compute in Hnet. injection Hnet as <-. discriminate Hjson.
  - exact Hflight.
Defined.

(** X7.  Whatever the service does, [handleConvert] never touches the
    slots, the name, the gallery snapshot, the selection, the edit-mode
    cells or the tab: the form stays filled in for a resubmission. *)
Theorem handleConvert_frame
        (API_BASE : string) (net : Request -> Outcome Response) (s : AppState) :
  let s' := final_state (run (handleConvert API_BASE net) s) in
  viewImages s' = viewImages s
  /\ modelName s' = modelName s
  /\ savedModels s' = savedModels s
  /\ selectedModel s' = selectedModel s
  /\ editingModel s' = editingModel s
  /\ editName s' = editName s
  /\ editDescription s' = editDescription s
  /\ activeTab s' = activeTab s.
Proof.
  cbv zeta. unfold run, handleConvert, final_state.
  destruct (ViewImages.front (viewImages s)) as [front |]; act_eval;
    [| repeat split].
  destruct (net _) as [resp | e]; act_eval; [| repeat split].
  destruct (ok resp); act_eval;
    (destruct (resp_json resp) as [body | e]; act_eval; [| repeat split]).
  - destruct (Cast.nullable ConversionResult.cast body); act_eval; repeat split.
  - destruct (JsVal.get body "detail") as [detail | e]; act_eval;
      [destruct (JsVal.new_Error _); act_eval |]; repeat split.
Qed.

(** X8.  When the conversion request does not complete, the error text is
    the message of the rejection if that is an [Error], and "An error
    occurred" otherwise; the request is not retried, no gallery read is
    triggered and the previous conversion result is kept. *)
Theorem handleConvert_network_failure
        (API_BASE : string) (net : Request -> Outcome Response)
        (s : AppState) (front : File) (e : JsThrown) :
  ViewImages.front (viewImages s) = Some front ->
  net (submitted_request API_BASE front s) = Rejected e ->
  let r := run (handleConvert API_BASE net) s in
  let s' := final_state r in
  error s' = Some (match e with
                   | JsError _ message => message
                   | JsNonError _ => "An error occurred"
                   end)
  /\ trace r = [EFetch (submitted_request API_BASE front s)]
  /\ conversionResult s' = conversionResult s
  /\ progress s' = ""
  /\ isConverting s' = false.
Proof.
  intros Hfront Hnet r s'. subst s' r.
  rewrite (handleConvert_rejected API_BASE net s front e Hfront Hnet).
  repeat split.
Qed.

Lemma handleConvert_network_failure_witness :
  error (final_state (run (handleConvert "" Scenario.net_down) Scenario.front_only))
  = Some "Failed to fetch".
Proof.
  exact (proj1 (handleConvert_network_failure "" Scenario.net_down Scenario.front_only
                  (Scenario.photo "front.png") (JsError "TypeError" "Failed to fetch")
                  eq_refl eq_refl)).
Defined.

(** X9.  [handleConvert] is its code before the [await] followed by its
    code after it.  While the request is awaited exactly that request has
    been sent, the in-flight flag is set (so the Convert button is
    disabled), the previous error text is cleared, the previous result is
    still there, and the progress text announces the number of file fields
    of the form, which is between 1 and 4. *)
Theorem handleConvert_in_flight
        (API_BASE : string) (net : Request -> Outcome Response)
        (s : AppState) (front : File) :
  ViewImages.front (viewImages s) = Some front ->
  let request := submitted_request API_BASE front s in
  let pending := run (handleConvert_begin API_BASE front) s in
  let files := file_fields (convert_formData front (viewImages s) (modelName s)) in
  run (handleConvert API_BASE net) s
  = handleConvert_settle API_BASE (net request) (final_state pending, trace pending)
  /\ trace pending = [EFetch request]
  /\ isConverting (final_state pending) = true
  /\ convert_disabled (final_state pending) = true
  /\ error (final_state pending) = None
  /\ conversionResult (final_state pending) = conversionResult s
  /\ progress (final_state pending)
     = "Processing " ++ Js.string_of_nat (length files)
       ++ " view(s) with Tripo3D (30-90 seconds)..."
  /\ (1 <= length files <= 4)%nat
  /\ In (progress (final_state pending))
        ["Processing 1 view(s) with Tripo3D (30-90 seconds)...";
         "Processing 2 view(s) with Tripo3D (30-90 seconds)...";
         "Processing 3 view(s) with Tripo3D (30-90 seconds)...";
         "Processing 4 view(s) with Tripo3D (30-90 seconds)..."].
Proof.
  intros Hfront request pending files.
  assert (Hcount : length files = viewCount (viewImages s)).
  { subst files.
    rewrite (proj1 (convert_formData_fields front (viewImages s) (modelName s) Hfront)).
    apply filled_slots_count. }
  split.
  { subst request pending.
    unfold run, handleConvert, handleConvert_settle, handleConvert_begin,
      submitted_request, final_state, trace.
    rewrite Hfront. act_eval. reflexivity. }
  subst pending. unfold run, handleConvert_begin, final_state, trace.
  act_eval. cbn [isConverting error conversionResult progress with_progress
                 with_error with_isConverting].
  rewrite Hcount.
  repeat split.
  - unfold convert_disabled. cbn. apply orb_true_r.
  - destruct (viewImages s) as [fr bk lf rt]. cbn in Hfront. subst fr.
    destruct bk, lf, rt; cbn; lia.
  - destruct (viewImages s) as [fr bk lf rt]. cbn in Hfront. subst fr.
    destruct bk, lf, rt; cbn; lia.
  - destruct (viewImages s) as [fr bk lf rt]. cbn in Hfront. subst fr.
    destruct bk, lf, rt; cbn; auto 6.
Qed.

Lemma handleConvert_in_flight_witness :
  progress (final_state (run (handleConvert_begin "" (Scenario.photo "front.png"))
                             Scenario.four_views))
  = "Processing 4 view(s) with Tripo3D (30-90 seconds)...".
Proof.
  destruct (handleConvert_in_flight "" Scenario.net_down Scenario.four_views
              (Scenario.photo "front.png") eq_refl)
    as (_ & _ & _ & _ & _ & _ & Hprogress & _).
  rewrite Hprogress. reflexivity.
Defined.

(** ** What the preview shows *)

Lemma append_nonempty (a : string) (c : ascii) (b : string) :
  Js.truthy_string (a ++ String c b) = true.
Proof. now destruct a. Qed.

Lemma getProxyUrl_truthy (API_BASE x y : string) :
  getProxyUrl API_BASE x = Some y -> Js.truthy_string y = true.
Proof.
  unfold getProxyUrl, proxy_form.
  destruct (Js.truthy_string x) eqn:Hx; [| discriminate]. cbn [negb].
  destruct (Js.startsWith x "http"); intros Heq; inversion Heq; subst.
  - apply append_nonempty.
  - exact Hx.
Qed.

Lemma shown_getProxyUrl (API_BASE x : string) :
  shown (getProxyUrl API_BASE x) = getProxyUrl API_BASE x.
Proof.
  destruct (getProxyUrl API_BASE x) as [y |] eqn:Hy; [| reflexivity].
  cbn. now rewrite (getProxyUrl_truthy API_BASE x y Hy).
Qed.

Lemma shown_displayModelUrl (API_BASE : string) (s : AppState) :
  shown (displayModelUrl API_BASE s) = displayModelUrl API_BASE s.
Proof.
  unfold displayModelUrl, selected_asset.
  destruct (conversionResult s) as [r |];
    [destruct (Js.truthy_string (ConversionResult.model_url r)) |];
    try apply shown_getProxyUrl;
    (destruct (selectedModel s) as [m |];
     [destruct (Js.truthy_string (SavedModel.model_url m)) |]);
    try apply shown_getProxyUrl; reflexivity.
Qed.

(** X10.  The address the Download button opens and the address given to
    the viewer go together: the displayed address is the resolution by
    [getProxyUrl] of the download target; it is never the empty string, so
    testing it for truthiness in the markup is testing it against [null];
    and whenever it is there, the download target is a defined, non-empty
    address. *)
Theorem download_target_consistent (API_BASE : string) (s : AppState) :
  displayModelUrl API_BASE s = asset_of API_BASE (download_target s)
  /\ create_preview API_BASE s = displayModelUrl API_BASE s
  /\ displayModelUrl API_BASE s <> Some ""
  /\ (displayModelUrl API_BASE s <> None ->
      exists u, download_target s = Some u /\ u <> ""
                /\ displayModelUrl API_BASE s = getProxyUrl API_BASE u).
Proof.
  assert (Heq : displayModelUrl API_BASE s = asset_of API_BASE (download_target s)).
  { unfold displayModelUrl, selected_asset, download_target.
    destruct (conversionResult s) as [r |];
      [destruct (Js.truthy_string (ConversionResult.model_url r)); [reflexivity |] |];
      (destruct (selectedModel s) as [m |]; [| reflexivity]);
      cbn; now destruct (SavedModel.model_url m). }
  split; [exact Heq |].
  split; [apply shown_displayModelUrl |].
  split.
  - intros Hempty. pose proof (shown_displayModelUrl API_BASE s) as Hshown.
    rewrite Hempty in Hshown. discriminate Hshown.
  - intros Hsome. rewrite Heq in Hsome |- *.
    destruct (download_target s) as [u |]; [| now elim Hsome].
    exists u. repeat split. intros ->. now apply Hsome.
Qed.

Lemma download_target_consistent_witness :
  exists u, download_target Scenario.chair_selected = Some u /\ u <> ""
            /\ displayModelUrl "" Scenario.chair_selected = getProxyUrl "" u.
Proof.
  apply (proj2 (proj2 (proj2 (download_target_consistent "" Scenario.chair_selected)))).
  discriminate.
Defined.

(** X11.  Clicking a gallery card sends nothing, selects the model and
    drops the conversion result, so that whatever was displayed before, the
    displayed address becomes the resolution of that model's address (shown
    in the gallery preview when the address is not empty); clicking one card
    and then another leaves the same state as clicking the second alone. *)
Theorem selectModel_supersedes
        (API_BASE : string) (model other : SavedModel.t) (s : AppState) :
  let r := run (selectModel model) s in
  completion r = Normal tt
  /\ trace r = []
  /\ selectedModel (final_state r) = Some model
  /\ conversionResult (final_state r) = None
  /\ displayModelUrl API_BASE (final_state r)
     = getProxyUrl API_BASE (SavedModel.model_url model)
  /\ gallery_preview API_BASE (final_state r)
     = getProxyUrl API_BASE (SavedModel.model_url model)
  /\ (SavedModel.model_url model <> "" ->
      gallery_preview API_BASE (final_state r) <> None)
  /\ final_state (run (selectModel other) (final_state r))
     = final_state (run (selectModel other) s).
Proof.
  cbv zeta.
  assert (Hdisplay : displayModelUrl API_BASE (final_state (run (selectModel model) s))
                     = getProxyUrl API_BASE (SavedModel.model_url model)).
  { act_run. unfold displayModelUrl, selected_asset. cbn.
    now destruct (SavedModel.model_url model). }
  assert (Hgallery : gallery_preview API_BASE (final_state (run (selectModel model) s))
                     = getProxyUrl API_BASE (SavedModel.model_url model)).
  { unfold gallery_preview. rewrite Hdisplay, shown_getProxyUrl. now act_run. }
  repeat split; try assumption.
  intros Hne Hnone. rewrite Hgallery in Hnone.
  destruct (getProxyUrl_nonempty API_BASE _ Hne) as [y Hy]. congruence.
Qed.

Lemma selectModel_supersedes_witness :
  gallery_preview ""
    (final_state (run (selectModel Scenario.chair) Scenario.front_only)) <> None.
Proof.
  destruct (selectModel_supersedes "" Scenario.chair Scenario.chair Scenario.front_only)
    as (_ & _ & _ & _ & _ & _ & Hshown & _).
  apply Hshown. discriminate.
Defined.

(** X12.  A successful conversion whose result has a non-empty address
    takes over the display whatever model is selected: the selection itself
    is kept, the displayed address is the resolution of the result's
    address, and with a model selected the gallery preview shows that
    address too. *)
Theorem conversion_success_display
        (API_BASE : string) (net : Request -> Outcome Response)
        (s : AppState) (front : File) (resp : Response)
        (body : JsValue) (result : ConversionResult.t) :
  ViewImages.front (viewImages s) = Some front ->
  net (submitted_request API_BASE front s) = Resolved resp ->
  ok resp = true ->
  resp_json resp = Resolved body ->
  ConversionResult.cast body = Some result ->
  ConversionResult.model_url result <> "" ->
  let s' := final_state (run (handleConvert API_BASE net) s) in
  selectedModel s' = selectedModel s
  /\ displayModelUrl API_BASE s'
     = getProxyUrl API_BASE (ConversionResult.model_url result)
  /\ create_preview API_BASE s' <> None
  /\ (selectedModel s <> None ->
      gallery_preview API_BASE s'
      = getProxyUrl API_BASE (ConversionResult.model_url result)).
Proof.
  intros Hfront Hnet Hok Hjson Hcast Hurl s'. subst s'.
  rewrite (handleConvert_ok API_BASE net s front resp body (Some result)
             Hfront Hnet Hok Hjson (cast_not_null body result Hcast)).
  assert (Hdisplay : displayModelUrl API_BASE (convert_succeeded (Some result) s)
                     = getProxyUrl API_BASE (ConversionResult.model_url result)).
  { unfold displayModelUrl. cbn.
    apply truthy_string_nonempty in Hurl. now rewrite Hurl. }
  cbn [final_state fst snd].
  repeat split.
  - exact Hdisplay.
  - unfold create_preview. rewrite Hdisplay, shown_getProxyUrl.
    destruct (getProxyUrl_nonempty API_BASE _ Hurl) as [y ->]. discriminate.
  - intros Hsel. unfold gallery_preview. rewrite Hdisplay, shown_getProxyUrl.
    cbn. destruct (selectedModel s); [reflexivity | now elim Hsel].
Qed.

Lemma conversion_success_display_witness :
  gallery_preview ""
    (final_state (run (handleConvert "" Scenario.net_success)
                      (with_selectedModel (Some Scenario.chair) Scenario.front_only)))
  = Some "/api/proxy-glb?url=https%3A%2F%2Fcdn.example.com%2F8.glb".
Proof.
  destruct (conversion_success_display "" Scenario.net_success
              (with_selectedModel (Some Scenario.chair) Scenario.front_only)
              (Scenario.photo "front.png") Scenario.success_response
              Scenario.result_json
              {| ConversionResult.status := "success";
                 ConversionResult.task_id := "t-8";
                 ConversionResult.model_id := Some 8%Z;
                 ConversionResult.model_url := "https://cdn.example.com/8.glb";
                 ConversionResult.thumbnail_url := None |}
              eq_refl eq_refl eq_refl eq_refl eq_refl
              (fun H => eq_ind "https://cdn.example.com/8.glb"
                               (fun t => match t with EmptyString => False | _ => True end)
                               I "" H))
    as (_ & _ & _ & Hgallery).
  rewrite Hgallery; [reflexivity | discriminate].
Defined.

Lemma handleDeleteModel_outcomes_state
      (API_BASE : string) (net : Request -> Outcome Response)
      (s : AppState) (modelId : Z) (resp : Response) :
  net (model_request API_BASE DELETE modelId [] NoBody) = Resolved resp ->
  final_state (run (handleDeleteModel API_BASE net (fun _ => true) modelId) s)
  = (if selected_is s modelId then with_selectedModel None s else s)
  /\ requests (trace (run (handleDeleteModel API_BASE net (fun _ => true) modelId) s))
     = [model_request API_BASE DELETE modelId [] NoBody; list_request API_BASE].
Proof.
  intros Hnet. unfold run, handleDeleteModel, final_state, trace.
  act_eval. act_step Hnet.
  destruct (selected_is s modelId); act_eval; split; reflexivity.
Qed.

(** X13.  With no conversion result on display, a confirmed delete of the
    selected model whose request completes empties the preview; a delete of
    any other model leaves the displayed address as it was. *)
Theorem handleDeleteModel_display
        (API_BASE : string) (net : Request -> Outcome Response)
        (s : AppState) (modelId : Z) (resp : Response) :
  net (model_request API_BASE DELETE modelId [] NoBody) = Resolved resp ->
  let s' := final_state (run (handleDeleteModel API_BASE net (fun _ => true) modelId) s) in
  (selected_is s modelId = true -> conversionResult s = None ->
   displayModelUrl API_BASE s' = None /\ gallery_preview API_BASE s' = None)
  /\ (selected_is s modelId = false ->
      displayModelUrl API_BASE s' = displayModelUrl API_BASE s).
Proof.
  intros Hnet s'.
  destruct (handleDeleteModel_outcomes_state API_BASE net s modelId resp Hnet) as [Hs' _].
  fold s' in Hs'. split.
  - intros Hsel Hres. rewrite Hs', Hsel.
    unfold gallery_preview, displayModelUrl, selected_asset. cbn. now rewrite Hres.
  - intros Hsel. now rewrite Hs', Hsel.
Qed.

Lemma handleDeleteModel_display_witness :
  displayModelUrl ""
    (final_state (run (handleDeleteModel "" Scenario.net_delete_fails (fun _ => true) 7)
                      Scenario.chair_selected)) = None.
Proof.
  destruct (handleDeleteModel_display "" Scenario.net_delete_fails
              Scenario.chair_selected 7 Scenario.server_error_response eq_refl)
    as (Hselected & _).
  exact (proj1 (Hselected eq_refl eq_refl)).
Defined.

(** ** Proxy addresses determine the asset *)

Lemma hex_digit_value (k : nat) :
  (k < 16)%nat ->
  nat_of_ascii (Js.hex_digit k) = if (k <? 10)%nat then (48 + k)%nat else (55 + k)%nat.
Proof.
  intros Hk. unfold Js.hex_digit.
  destruct (k <? 10)%nat; apply nat_ascii_embedding; lia.
Qed.

Lemma hex_digit_inj (a b : nat) :
  (a < 16)%nat -> (b < 16)%nat -> Js.hex_digit a = Js.hex_digit b -> a = b.
Proof.
  intros Ha Hb Heq. apply (f_equal nat_of_ascii) in Heq.
  rewrite !hex_digit_value in Heq by assumption.
  destruct (a <? 10)%nat eqn:Ea, (b <? 10)%nat eqn:Eb;
    try apply Nat.ltb_lt in Ea; try apply Nat.ltb_lt in Eb;
    try apply Nat.ltb_ge in Ea; try apply Nat.ltb_ge in Eb; lia.
Qed.

Lemma percent_encode_inj (c c' : ascii) (r r' : string) :
  Js.percent_encode c ++ r = Js.percent_encode c' ++ r' -> c = c' /\ r = r'.
Proof.
  pose proof (nat_ascii_bounded c) as Hc.
  pose proof (nat_ascii_bounded c') as Hc'.
  pose proof (Nat.div_mod_eq (nat_of_ascii c) 16) as Hn.
  pose proof (Nat.div_mod_eq (nat_of_ascii c') 16) as Hn'.
  assert (Hq : (nat_of_ascii c / 16 < 16)%nat)
    by (apply Nat.Div0.div_lt_upper_bound; lia).
  assert (Hq' : (nat_of_ascii c' / 16 < 16)%nat)
    by (apply Nat.Div0.div_lt_upper_bound; lia).
  assert (Hm : (nat_of_ascii c mod 16 < 16)%nat)
    by (apply Nat.mod_upper_bound; lia).
  assert (Hm' : (nat_of_ascii c' mod 16 < 16)%nat)
    by (apply Nat.mod_upper_bound; lia).
  unfold Js.percent_encode.
  remember (nat_of_ascii c / 16)%nat as q.
  remember (nat_of_ascii c' / 16)%nat as q'.
  remember (nat_of_ascii c mod 16)%nat as m.
  remember (nat_of_ascii c' mod 16)%nat as m'.
  cbn [append]. intros Heq.
  injection Heq as Hhigh Hlow Hrest.
  apply hex_digit_inj in Hhigh; [| assumption ..].
  apply hex_digit_inj in Hlow; [| assumption ..].
  split; [| exact Hrest].
  rewrite <- (ascii_nat_embedding c), <- (ascii_nat_embedding c').
  f_equal. lia.
Qed.

Lemma encodeURIComponent_inj (s s' : string) :
  Js.encodeURIComponent s = Js.encodeURIComponent s' -> s = s'.
Proof.
  revert s'. induction s as [| c s IH]; intros [| c' s'] Heq.
  - reflexivity.
  - cbn [Js.encodeURIComponent] in Heq. unfold Js.percent_encode in Heq.
    destruct (Js.uri_unreserved c'); discriminate Heq.
  - cbn [Js.encodeURIComponent] in Heq. unfold Js.percent_encode in Heq.
    destruct (Js.uri_unreserved c); discriminate Heq.
  - cbn [Js.encodeURIComponent] in Heq.
    destruct (Js.uri_unreserved c) eqn:Hc, (Js.uri_unreserved c') eqn:Hc'.
    + injection Heq as -> Hrest. f_equal. now apply IH.
    + unfold Js.percent_encode in Heq. cbn [append] in Heq.
      injection Heq as -> _. vm_compute in Hc. discriminate Hc.
    + unfold Js.percent_encode in Heq. cbn [append] in Heq.
      injection Heq as <- _. vm_compute in Hc'. discriminate Hc'.
    + apply percent_encode_inj in Heq. destruct Heq as [-> Hrest].
      f_equal. now apply IH.
Qed.

Lemma append_inv_head (a b c : string) : a ++ b = a ++ c -> b = c.
Proof.
  induction a as [| x a IH]; cbn; intros Heq; [exact Heq |].
  injection Heq as Heq. now apply IH.
Qed.

Lemma proxy_form_inj (API_BASE x y : string) :
  proxy_form API_BASE x = proxy_form API_BASE y -> x = y.
Proof.
  unfold proxy_form. intros Heq.
  apply (append_inv_head API_BASE) in Heq.
  apply (append_inv_head "/api/proxy-glb?url="
           (Js.encodeURIComponent x) (Js.encodeURIComponent y)) in Heq.
  now apply encodeURIComponent_inj.
Qed.

(** X14.  [getProxyUrl] loses nothing: two addresses that start with
    [http] and get the same proxy address are the same address, and so are
    two non-empty addresses that do not start with [http] and resolve to
    the same address. *)
Theorem getProxyUrl_injective (API_BASE x y : string) :
  (Js.startsWith x "http" = true -> Js.startsWith y "http" = true ->
   getProxyUrl API_BASE x = getProxyUrl API_BASE y -> x = y)
  /\ (Js.startsWith x "http" = false -> Js.startsWith y "http" = false ->
      x <> "" -> getProxyUrl API_BASE x = getProxyUrl API_BASE y -> x = y).
Proof.
  split.
  - intros Hx Hy. unfold getProxyUrl.
    assert (Htx : Js.truthy_string x = true) by (now destruct x).
    assert (Hty : Js.truthy_string y = true) by (now destruct y).
    rewrite Htx, Hty, Hx, Hy. cbn [negb]. intros Heq.
    apply proxy_form_inj with (API_BASE := API_BASE). congruence.
  - intros Hx Hy Hne. unfold getProxyUrl. rewrite Hx, Hy.
    apply truthy_string_nonempty in Hne. rewrite Hne. cbn [negb].
    destruct (Js.truthy_string y); cbn [negb]; intros Heq;
      [now injection Heq | discriminate Heq].
Qed.

Lemma getProxyUrl_injective_witness :
  SavedModel.model_url Scenario.chair = "https://cdn.example.com/chair.glb".
Proof.
  exact (proj1 (getProxyUrl_injective "" (SavedModel.model_url Scenario.chair)
                  "https://cdn.example.com/chair.glb")
           eq_refl eq_refl eq_refl).
Defined.

(** ** The gallery read, whatever the service does *)

(** X15.  [fetchModels] sends exactly one request, never throws, and
    writes no cell but the gallery snapshot: whatever the service does, the
    error text and the selection are as before (a selected model stays
    selected even when the new snapshot no longer lists it). *)
Theorem fetchModels_silent
        (API_BASE : string) (net : Request -> Outcome Response) (s : AppState) :
  let r := run (fetchModels API_BASE net) s in
  (forall e, completion r <> Thrown e)
  /\ requests (trace r) = [list_request API_BASE]
  /\ final_state r = with_savedModels (savedModels (final_state r)) s
  /\ error (final_state r) = error s
  /\ selectedModel (final_state r) = selectedModel s.
Proof.
  cbv zeta.
  destruct (fetchModels_resume_frame (net (list_request API_BASE))
              (s, [EFetch (list_request API_BASE)]))
    as ((models & Hstate) & Hreq & Hthrow).
  assert (Hrun : run (fetchModels API_BASE net) s
                 = fetchModels_resume (net (list_request API_BASE))
                     (s, [EFetch (list_request API_BASE)])) by reflexivity.
  rewrite Hrun. cbn [fst snd] in Hstate, Hreq.
  repeat split; try assumption; rewrite Hstate; reflexivity.
Qed.

(** X16.  Against the same service the gallery read is idempotent: reading
    again from the state a read has left changes nothing. *)
Theorem fetchModels_idempotent
        (API_BASE : string) (net : Request -> Outcome Response) (s : AppState) :
  final_state (run (fetchModels API_BASE net)
                   (final_state (run (fetchModels API_BASE net) s)))
  = final_state (run (fetchModels API_BASE net) s).
Proof.
  unfold run, fetchModels, fetchModels_resume, final_state. act_eval.
  destruct (net (list_request API_BASE)) as [resp | e]; act_eval; [| reflexivity].
  destruct (resp_json resp) as [body | e]; act_eval; [| reflexivity].
  destruct (JsVal.get body "models") as [models | e]; act_eval; reflexivity.
Qed.

(** ** Editing a saved model *)

Lemma handleUpdateModel_first_request
      (API_BASE : string) (net : Request -> Outcome Response)
      (s : AppState) (modelId : Z) :
  exists rest,
    requests (trace (run (handleUpdateModel API_BASE net modelId) s))
    = model_request API_BASE PUT modelId [("Content-Type", "application/json")]
        (JsonText (JsObject [("name", JsString (editName s));
                             ("description", JsString (editDescription s))]))
      :: rest.
Proof.
  unfold run, handleUpdateModel, trace. act_eval.
  destruct (net _); act_eval; eexists; reflexivity.
Qed.

(** X17.  Entering edit mode sends nothing and always loads the model's own
    name and description (the empty string for a [null] description),
    whatever drafts an earlier edit left behind.  Saving then sends, as
    its first request, a PUT to [API_BASE/api/models/<id>] (the decimal
    digits of a safe-integer id) with the JSON content type and the body
    [{name, description}] of what the fields hold: unchanged, the model's
    name and that description; after typing, the typed values.  Cancelling
    sends nothing and only leaves edit mode. *)
Theorem startEdit_then_update
        (API_BASE : string) (net : Request -> Outcome Response)
        (model : SavedModel.t) (s : AppState) :
  let editing := final_state (run (startEdit model) s) in
  let saves (name description : string) (after : AppState) :=
    exists request rest,
      requests (trace (run (handleUpdateModel API_BASE net (SavedModel.id model)) after))
      = request :: rest
      /\ req_method request = PUT
      /\ ((- (2 ^ 53 - 1) <= SavedModel.id model <= 2 ^ 53 - 1)%Z ->
          req_url request
          = API_BASE ++ "/api/models/"
            ++ NilZero.string_of_int (Z.to_int (SavedModel.id model)))
      /\ req_headers request = [("Content-Type", "application/json")]
      /\ req_body request
         = JsonText (JsObject [("name", JsString name);
                               ("description", JsString description)]) in
  trace (run (startEdit model) s) = []
  /\ editingModel editing = Some (SavedModel.id model)
  /\ editName editing = SavedModel.name model
  /\ (forall d, SavedModel.description model = Some d -> editDescription editing = d)
  /\ (SavedModel.description model = None -> editDescription editing = "")
  /\ saves (SavedModel.name model)
           (match SavedModel.description model with Some d => d | None => "" end)
           editing
  /\ (forall name description,
         saves name description
               (final_state
                  (run (typeEditDescription description)
                       (final_state (run (typeEditName name) editing)))))
  /\ trace (run cancelEdit editing) = []
  /\ editingModel (final_state (run cancelEdit editing)) = None
  /\ final_state (run cancelEdit editing) = with_editingModel None editing.
Proof.
  cbv zeta.
  assert (Hdescr : description_or_empty (SavedModel.description model)
                   = match SavedModel.description model with
                     | Some d => d
                     | None => ""
                     end).
  { unfold description_or_empty.
    destruct (SavedModel.description model) as [[| c d] |]; reflexivity. }
  assert (Hsaves : forall after,
             exists request rest,
               requests (trace (run (handleUpdateModel API_BASE net (SavedModel.id model))
                                    after))
               = request :: rest
               /\ req_method request = PUT
               /\ ((- (2 ^ 53 - 1) <= SavedModel.id model <= 2 ^ 53 - 1)%Z ->
                   req_url request
                   = API_BASE ++ "/api/models/"
                     ++ NilZero.string_of_int (Z.to_int (SavedModel.id model)))
               /\ req_headers request = [("Content-Type", "application/json")]
               /\ req_body request
                  = JsonText (JsObject [("name", JsString (editName after));
                                        ("description",
                                         JsString (editDescription after))])).
  { intros after.
    destruct (handleUpdateModel_first_request API_BASE net after (SavedModel.id model))
      as (rest & Hreq).
    eexists. exists rest. split; [exact Hreq |]. repeat split. }
  repeat match goal with |- _ /\ _ => split end; try reflexivity.
  - intros d Hd. act_run. cbn. rewrite Hd. cbn. now destruct d.
  - intros Hnone. act_run. cbn. now rewrite Hnone.
  - rewrite <- Hdescr. apply Hsaves.
  - intros name description. apply Hsaves.
Qed.

(** Saving the chair, whose description is [null], without a change. *)
Lemma startEdit_then_update_witness :
  exists request rest,
    requests (trace (run (handleUpdateModel "" Scenario.net_down 7)
                         (final_state (run (startEdit Scenario.chair)
                                           Scenario.chair_selected))))
    = request :: rest
    /\ req_method request = PUT
    /\ req_url request = "/api/models/7"
    /\ req_body request
       = JsonText (JsObject [("name", JsString "chair"); ("description", JsString "")]).
Proof.
  destruct (startEdit_then_update "" Scenario.net_down Scenario.chair
              Scenario.chair_selected)
    as (_ & _ & _ & _ & _ & (request & rest & Hreq & Hmethod & Hurl & _ & Hbody) & _).
  exists request, rest.
  split; [exact Hreq |].
  split; [exact Hmethod |].
  split; [| exact Hbody].
  apply Hurl. cbn. split; discriminate.
Defined.

(** ** Failures leave the display alone *)

(** X18.  Whenever a submission ends with an error text, be it refused by
    the validation, failed in transit or answered with an error, the
    handler has ended normally, the conversion result is the previous one
    and the displayed address is what it was. *)
Theorem handleConvert_error_keeps_display
        (API_BASE : string) (net : Request -> Outcome Response)
        (s : AppState) (msg : string) :
  error (final_state (run (handleConvert API_BASE net) s)) = Some msg ->
  let r := run (handleConvert API_BASE net) s in
  completion r = Normal tt
  /\ conversionResult (final_state r) = conversionResult s
  /\ displayModelUrl API_BASE (final_state r) = displayModelUrl API_BASE s
  /\ refresh_count API_BASE (trace r) = 0%nat.
Proof.
  cbv zeta. unfold run, handleConvert, final_state, completion, trace.
  destruct (ViewImages.front (viewImages s)) as [front |]; act_eval;
    [| intros _; repeat split].
  destruct (net _) as [resp | e]; act_eval; [| intros _; repeat split].
  destruct (ok resp); act_eval;
    (destruct (resp_json resp) as [body | e]; act_eval; [| intros _; repeat split]).
  - destruct (Cast.nullable ConversionResult.cast body); act_eval;
      intros Herr; discriminate Herr.
  - destruct (JsVal.get body "detail") as [detail | e]; act_eval;
      [destruct (JsVal.new_Error _); act_eval |]; intros _; repeat split.
Qed.

Lemma handleConvert_error_keeps_display_witness :
  displayModelUrl ""
    (final_state (run (handleConvert "" Scenario.net_quota)
                      (with_selectedModel (Some Scenario.chair) Scenario.front_only)))
  = displayModelUrl "" (with_selectedModel (Some Scenario.chair) Scenario.front_only).
Proof.
  destruct (handleConvert_error_keeps_display "" Scenario.net_quota
              (with_selectedModel (Some Scenario.chair) Scenario.front_only)
              "quota exceeded" eq_refl) as (_ & _ & Hdisplay & _).
  exact Hdisplay.
Defined.

(** X19.  A 2xx status alone does not make a success.  When the body of a
    2xx answer is not JSON, the attempt fails with the parser's message, no
    gallery read is triggered and the previous result is kept; when the
    body is the JSON value [null], the attempt ends without error text and
    with a gallery read triggered, but with no conversion result, the
    previous one being dropped. *)
Theorem handleConvert_ok_without_result
        (API_BASE : string) (net : Request -> Outcome Response)
        (s : AppState) (front : File) (resp : Response) :
  ViewImages.front (viewImages s) = Some front ->
  net (submitted_request API_BASE front s) = Resolved resp ->
  ok resp = true ->
  let r := run (handleConvert API_BASE net) s in
  (forall e, resp_json resp = Rejected e ->
     error (final_state r) = Some (error_text e)
     /\ conversionResult (final_state r) = conversionResult s
     /\ refresh_count API_BASE (trace r) = 0%nat)
  /\ (resp_json resp = Resolved JsNull ->
      completion r = Normal tt
      /\ error (final_state r) = None
      /\ conversionResult (final_state r) = None
      /\ refresh_count API_BASE (trace r) = 1%nat).
Proof.
  intros Hfront Hnet Hok r. subst r. split.
  - intros e Hjson.
    rewrite (handleConvert_unparsed API_BASE net s front resp e Hfront Hnet Hjson).
    repeat split.
  - intros Hjson.
    rewrite (handleConvert_ok API_BASE net s front resp JsNull None
               Hfront Hnet Hok Hjson eq_refl).
    repeat split. unfold refresh_count, trace, requests. cbn.
    now rewrite String.eqb_refl.
Qed.

Lemma handleConvert_ok_without_result_witness :
  conversionResult
    (final_state (run (handleConvert "" (Scenario.answering POST Scenario.null_response))
                      Scenario.front_only)) = None.
Proof.
  destruct (handleConvert_ok_without_result ""
              (Scenario.answering POST Scenario.null_response) Scenario.front_only
              (Scenario.photo "front.png") Scenario.null_response
              eq_refl eq_refl eq_refl) as (_ & Hnull).
  exact (proj1 (proj2 (proj2 (Hnull eq_refl)))).
Defined.
